(** * Codeforces API wrapper ([cfapi.py]): request signing and response mapping

    A shallow embedding of the request layer ([_to_http], [_sorted_str_kwargs],
    [_get_url], [_url_api_request], [request_api]), of the response records
    ([CodeforcesResponse] and its subclasses) and of the endpoint methods
    [user_info], [contest_standings], [problemset_recentStatus] and
    [recentActions].

    Conventions of the model.
    - A Python [str] is a [string]: a sequence of characters, each an [ascii]
      (code points below 256).  Python orders [str] values by code point,
      which is [String.compare]; [str.encode('utf-8')] is [encode_utf8].
    - A Python [dict] is an association list in insertion order
      ([dict V]); [d[k] = v] is [dict_set].
    - Exceptions are values of [exn]; fallible code returns [exn + A].
    - The clock, the system random source and the remote service are
      inputs, gathered in [world]. *)

From Stdlib Require Import ZArith List String Ascii Bool Lia.
From Stdlib Require Import Permutation Sorted Orders Mergesort DecimalString.
From Stdlib Require Import RelationClasses.
From Stdlib Require Import DecimalPos DecimalZ.
Import ListNotations.
Set Warnings "-register-all".
Open Scope list_scope.
Open Scope string_scope.

(* ================================================================= *)
(** ** Python built-ins used by the source *)

(** Scalars that the callers pass as parameter values. *)
Inductive atom : Type :=
| AStr (s : string)
| AInt (z : Z)
| ABool (b : bool)
| ANone.

(** A parameter value: a scalar, or a [list] of scalars. *)
Inductive value : Type :=
| VAtom (a : atom)
| VList (l : list atom).

(** [str(x)] on a scalar. *)
Definition str (a : atom) : string :=
  match a with
  | AStr s => s
  | AInt z => NilZero.string_of_int (Z.to_int z)
  | ABool true => "True"
  | ABool false => "False"
  | ANone => "None"
  end.

(** [sep.join(xs)]. *)
Definition join (sep : string) (xs : list string) : string :=
  String.concat sep xs.

(** [value is None]. *)
Definition is_None (v : value) : bool :=
  match v with
  | VAtom ANone => true
  | _ => false
  end.

(** The order of [str] values, and [sorted] on a list of them. *)
Module StringOrder <: TotalLeBool.
Definition t := string.
Definition leb := String.leb.
Definition leb_total :
  forall a1 a2, leb a1 a2 = true \/ leb a2 a1 = true := String.leb_total.
End StringOrder.

Module StringSort := Sort StringOrder.

Definition sorted (l : list string) : list string := StringSort.sort l.

Definition str_le (a b : string) : Prop := String.leb a b = true.

(** Python dictionaries with [str] keys, in insertion order. *)
Definition dict (V : Type) : Type := list (string * V).

Definition keys {V : Type} (d : dict V) : list string := map fst d.

Fixpoint dict_get {V : Type} (d : dict V) (k : string) : option V :=
  match d with
  | [] => None
  | (k', v) :: d' => if String.eqb k' k then Some v else dict_get d' k
  end.

(** [d[k] = v]: an existing key keeps its place, a new key goes last. *)
Fixpoint dict_set {V : Type} (d : dict V) (k : string) (v : V) : dict V :=
  match d with
  | [] => [(k, v)]
  | (k', v') :: d' =>
      if String.eqb k' k then (k', v) :: d' else (k', v') :: dict_set d' k v
  end.

Definition dict_has {V : Type} (d : dict V) (k : string) : bool :=
  match dict_get d k with
  | Some _ => true
  | None => false
  end.

(** [str.encode('utf-8')] for code points below 256. *)
Definition encode_utf8_char (c : ascii) : list Z :=
  let n := Z.of_N (N_of_ascii c) in
  if Z.ltb n 128 then [n]
  else [Z.lor 192 (Z.shiftr n 6); Z.lor 128 (Z.land n 63)].

Fixpoint encode_utf8 (s : string) : list Z :=
  match s with
  | EmptyString => []
  | String c s' => encode_utf8_char c ++ encode_utf8 s'
  end.

(* ================================================================= *)
(** ** [hashlib.sha512] (FIPS 180-4), on 64-bit words held in [Z] *)

Module SHA512.

Definition mask64 : Z := Z.ones 64.

Definition w64 (x : Z) : Z := Z.land x mask64.

Definition add64 (x y : Z) : Z := w64 (x + y).

Definition rotr (n x : Z) : Z :=
  Z.lor (Z.shiftr x n) (w64 (Z.shiftl x (64 - n))).

Definition shr (n x : Z) : Z := Z.shiftr x n.

Definition not64 (x : Z) : Z := Z.lxor x mask64.

Definition Ch (x y z : Z) : Z :=
  Z.lxor (Z.land x y) (Z.land (not64 x) z).

Definition Maj (x y z : Z) : Z :=
  Z.lxor (Z.lxor (Z.land x y) (Z.land x z)) (Z.land y z).

Definition Sigma0 (x : Z) : Z :=
  Z.lxor (Z.lxor (rotr 28 x) (rotr 34 x)) (rotr 39 x).

Definition Sigma1 (x : Z) : Z :=
  Z.lxor (Z.lxor (rotr 14 x) (rotr 18 x)) (rotr 41 x).

Definition sigma0 (x : Z) : Z :=
  Z.lxor (Z.lxor (rotr 1 x) (rotr 8 x)) (shr 7 x).

Definition sigma1 (x : Z) : Z :=
  Z.lxor (Z.lxor (rotr 19 x) (rotr 61 x)) (shr 6 x).

Definition H0 : list Z :=
  [0x6a09e667f3bcc908; 0xbb67ae8584caa73b; 0x3c6ef372fe94f82b;
   0xa54ff53a5f1d36f1; 0x510e527fade682d1; 0x9b05688c2b3e6c1f;
   0x1f83d9abfb41bd6b; 0x5be0cd19137e2179]%Z.

Definition K : list Z :=
  [0x428a2f98d728ae22; 0x7137449123ef65cd; 0xb5c0fbcfec4d3b2f; 0xe9b5dba58189dbbc;
   0x3956c25bf348b538; 0x59f111f1b605d019; 0x923f82a4af194f9b; 0xab1c5ed5da6d8118;
   0xd807aa98a3030242; 0x12835b0145706fbe; 0x243185be4ee4b28c; 0x550c7dc3d5ffb4e2;
   0x72be5d74f27b896f; 0x80deb1fe3b1696b1; 0x9bdc06a725c71235; 0xc19bf174cf692694;
   0xe49b69c19ef14ad2; 0xefbe4786384f25e3; 0x0fc19dc68b8cd5b5; 0x240ca1cc77ac9c65;
   0x2de92c6f592b0275; 0x4a7484aa6ea6e483; 0x5cb0a9dcbd41fbd4; 0x76f988da831153b5;
   0x983e5152ee66dfab; 0xa831c66d2db43210; 0xb00327c898fb213f; 0xbf597fc7beef0ee4;
   0xc6e00bf33da88fc2; 0xd5a79147930aa725; 0x06ca6351e003826f; 0x142929670a0e6e70;
   0x27b70a8546d22ffc; 0x2e1b21385c26c926; 0x4d2c6dfc5ac42aed; 0x53380d139d95b3df;
   0x650a73548baf63de; 0x766a0abb3c77b2a8; 0x81c2c92e47edaee6; 0x92722c851482353b;
   0xa2bfe8a14cf10364; 0xa81a664bbc423001; 0xc24b8b70d0f89791; 0xc76c51a30654be30;
   0xd192e819d6ef5218; 0xd69906245565a910; 0xf40e35855771202a; 0x106aa07032bbd1b8;
   0x19a4c116b8d2d0c8; 0x1e376c085141ab53; 0x2748774cdf8eeb99; 0x34b0bcb5e19b48a8;
   0x391c0cb3c5c95a63; 0x4ed8aa4ae3418acb; 0x5b9cca4f7763e373; 0x682e6ff3d6b2b8a3;
   0x748f82ee5defb2fc; 0x78a5636f43172f60; 0x84c87814a1f0ab72; 0x8cc702081a6439ec;
   0x90befffa23631e28; 0xa4506cebde82bde9; 0xbef9a3f7b2c67915; 0xc67178f2e372532b;
   0xca273eceea26619c; 0xd186b8c721c0c207; 0xeada7dd6cde0eb1e; 0xf57d4f7fee6ed178;
   0x06f067aa72176fba; 0x0a637dc5a2c898a6; 0x113f9804bef90dae; 0x1b710b35131c471b;
   0x28db77f523047d84; 0x32caab7b40c72493; 0x3c9ebe0a15c9bebc; 0x431d67c49c100d4c;
   0x4cc5d4becb3e42b6; 0x597f299cfc657e2a; 0x5fcb6fab3ad6faec; 0x6c44198c4a475817]%Z.

(** Big-endian bytes of [x], [n] of them. *)
Fixpoint be_bytes (n : nat) (x : Z) : list Z :=
  match n with
  | O => []
  | S n' => Z.land (Z.shiftr x (8 * Z.of_nat n')) 255 :: be_bytes n' x
  end.

(** The padded message: [0x80], zeros up to 112 modulo 128, then the
    bit length on 16 bytes. *)
Definition pad (msg : list Z) : list Z :=
  let len := Z.of_nat (List.length msg) in
  let zeros := Z.to_nat ((111 - len) mod 128) in
  msg ++ [128%Z] ++ repeat 0%Z zeros ++ be_bytes 16 (8 * len).

Definition be_word (bs : list Z) : Z :=
  fold_left (fun acc b => Z.lor (Z.shiftl acc 8) b) bs 0%Z.

(** [words n bs]: the first [n] 64-bit words of [bs]. *)
Fixpoint words (n : nat) (bs : list Z) : list Z :=
  match n with
  | O => []
  | S n' => be_word (firstn 8 bs) :: words n' (skipn 8 bs)
  end.

(** The message schedule, latest word first: [rev_w] holds
    [W(t-1); W(t-2); ...]. *)
Fixpoint extend (n : nat) (rev_w : list Z) : list Z :=
  match n with
  | O => rev_w
  | S n' =>
      let w := add64 (add64 (sigma1 (nth 1 rev_w 0%Z)) (nth 6 rev_w 0%Z))
                     (add64 (sigma0 (nth 14 rev_w 0%Z)) (nth 15 rev_w 0%Z)) in
      extend n' (w :: rev_w)
  end.

Definition schedule (block : list Z) : list Z :=
  rev (extend 64 (rev (words 16 block))).

Record regs : Type := mkRegs {
  ra : Z; rb : Z; rc : Z; rd : Z; re : Z; rf : Z; rg : Z; rh : Z
}.

Definition round (r : regs) (kw : Z * Z) : regs :=
  let t1 := add64 (add64 (add64 (rh r) (Sigma1 (re r)))
                         (add64 (Ch (re r) (rf r) (rg r)) (fst kw)))
                  (snd kw) in
  let t2 := add64 (Sigma0 (ra r)) (Maj (ra r) (rb r) (rc r)) in
  mkRegs (add64 t1 t2) (ra r) (rb r) (rc r)
         (add64 (rd r) t1) (re r) (rf r) (rg r).

Definition regs_of (h : list Z) : regs :=
  mkRegs (nth 0 h 0%Z) (nth 1 h 0%Z) (nth 2 h 0%Z) (nth 3 h 0%Z)
         (nth 4 h 0%Z) (nth 5 h 0%Z) (nth 6 h 0%Z) (nth 7 h 0%Z).

Definition list_of (r : regs) : list Z :=
  [ra r; rb r; rc r; rd r; re r; rf r; rg r; rh r].

Definition compress (h : list Z) (block : list Z) : list Z :=
  let r := fold_left round (combine K (schedule block)) (regs_of h) in
  map (fun p => add64 (fst p) (snd p)) (combine h (list_of r)).

(** The blocks of a padded message; [n] bounds their number. *)
Fixpoint blocks (n : nat) (bs : list Z) : list (list Z) :=
  match n, bs with
  | O, _ => []
  | _, [] => []
  | S n', _ => firstn 128 bs :: blocks n' (skipn 128 bs)
  end.

Definition digest_words (msg : list Z) : list Z :=
  let p := pad msg in
  fold_left compress (blocks (List.length p) p) H0.

Definition hex_digit (n : Z) : ascii :=
  match String.get (Z.to_nat n) "0123456789abcdef" with
  | Some c => c
  | None => "0"%char
  end.

Definition hex_byte (b : Z) : string :=
  String (hex_digit (Z.shiftr b 4)) (String (hex_digit (Z.land b 15)) "").

Definition hex (bs : list Z) : string :=
  String.concat "" (map hex_byte bs).

Definition digest (msg : list Z) : list Z :=
  flat_map (be_bytes 8) (digest_words msg).

(** [sha512(data).hexdigest()]. *)
Definition hexdigest (msg : list Z) : string := hex (digest msg).

End SHA512.

Definition sha512_hexdigest (data : list Z) : string := SHA512.hexdigest data.

(* ================================================================= *)
(** ** The canonical query encoder *)

(** [CodeforcesAPI._to_http]. *)
Definition _to_http (param : string) (v : value) : string :=
  let value :=
    match v with
    | VList l => join ";" (map str l)
    | VAtom a => str a
    end in
  param ++ "=" ++ value.

(** The loop of [_sorted_str_kwargs]: [lst.append] for every entry whose
    value is not [None]. *)
Definition collect_step (lst : list string) (entry : string * value) : list string :=
  let '(param, value) := entry in
  if negb (is_None value) then lst ++ [_to_http param value] else lst.

(** [CodeforcesAPI._sorted_str_kwargs]. *)
Definition _sorted_str_kwargs (kwargs : dict value) : list string :=
  let lst := fold_left collect_step kwargs [] in
  sorted lst.

(** [CodeforcesAPI._get_url]. *)
Definition _get_url (kwargs : dict value) : string :=
  join "&" (_sorted_str_kwargs kwargs).

(* ================================================================= *)
(** ** The request signer *)

Definition ascii_lowercase : string := "abcdefghijklmnopqrstuvwxyz".
Definition digits : string := "0123456789".

(** [SystemRandom().choice(seq)], on the raw draw [r] of the system
    random source. *)
Definition choice (seq : string) (r : nat) : string :=
  match String.get (r mod String.length seq) seq with
  | Some c => String c ""
  | None => ""
  end.

(** [''.join(SystemRandom().choice(ascii_lowercase + digits) for i in range(6))];
    [rng i] is the draw of the [i]-th call. *)
Definition rand_nonce (rng : nat -> nat) : string :=
  join "" (map (fun i => choice (ascii_lowercase ++ digits) (rng i)) (seq 0 6)).

(** The configuration held by a [CodeforcesAPI] object. *)
Record config : Type := mkConfig {
  _key : option string;
  _secret : option string;
  _lang : string
}.

(** The [lang] setter: only ["ru"] and ["en"] are accepted. *)
Definition lang_ok (value : string) : bool :=
  String.eqb value "ru" || String.eqb value "en".

(** The signature [sig] of [_url_api_request], given the nonce [rand] and
    the parameters [kwargs] as they are when it is computed. *)
Definition signature (rand method : string) (kwargs : dict value) (secret : string) : string :=
  rand ++ sha512_hexdigest
            (encode_utf8 (rand ++ "/" ++ method ++ "?" ++ _get_url kwargs ++ "#" ++ secret)).

(** The parameters as they are when the signature is computed: those of
    the caller, then [lang], [time] and [apiKey]. *)
Definition signed_params (lang key : string) (now : Z) (kwargs : dict value) : dict value :=
  dict_set (dict_set (dict_set kwargs "lang" (VAtom (AStr lang)))
                     "time" (VAtom (AInt now)))
           "apiKey" (VAtom (AStr key)).

(** [CodeforcesAPI._url_api_request]; [now] is [int(time())]. *)
Definition _url_api_request (self : config) (now : Z) (rng : nat -> nat)
    (method : string) (kwargs : dict value) : string :=
  let kwargs := dict_set kwargs "lang" (VAtom (AStr (_lang self))) in
  match _key self, _secret self with
  | Some key, Some secret =>
      let kwargs := dict_set kwargs "time" (VAtom (AInt now)) in
      let kwargs := dict_set kwargs "apiKey" (VAtom (AStr key)) in
      let rand := rand_nonce rng in
      let sig := signature rand method kwargs secret in
      let kwargs := dict_set kwargs "apiSig" (VAtom (AStr sig)) in
      _get_url kwargs
  | _, _ => _get_url kwargs
  end.

(* ================================================================= *)
(** ** JSON payloads, exceptions and Python objects *)

(** A parsed JSON document ([Response.json()]).  Numbers are held as
    integers; no code of the response layer inspects them. *)
Inductive json : Type :=
| JNull
| JBool (b : bool)
| JNum (z : Z)
| JStr (s : string)
| JArr (l : list json)
| JObj (m : list (string * json)).

(** The record classes of the source. *)
Inductive cls : Type :=
| User | BlogEntry | Comment | RecentAction | RatingChange | Contest
| Member | Party | Problem | ProblemStatistics | Submission | Hack
| ProblemResult | RanklistRow.

(** Values held by attributes and returned by the endpoint methods: raw
    JSON, a list built by [list(map(...))] or a list display, or an
    instance of a record class with its attribute dictionary. *)
Inductive pyval : Type :=
| PJson (j : json)
| PList (l : list pyval)
| PObj (c : cls) (attrs : list (string * pyval)).

(** Exceptions.  The messages of the errors that the source raises itself
    are exact; those of the interpreter are abridged.  [ConnectionError]
    carries its optional second argument. *)
Inductive exn : Type :=
| TypeError (msg : string)
| AttributeError (msg : string)
| KeyError (key : string)
| IndexError (msg : string)
| ValueError (msg : string)
| ConnectionError (msg : string) (detail : option pyval).

(** The error monad of fallible code. *)
Definition result (A : Type) : Type := (exn + A)%type.

Definition ret {A : Type} (a : A) : result A := inr a.

Definition raise {A : Type} (e : exn) : result A := inl e.

Definition bind {A B : Type} (m : result A) (f : A -> result B) : result B :=
  match m with
  | inl e => inl e
  | inr a => f a
  end.

Declare Scope result_scope.
Delimit Scope result_scope with result.
Notation "x <- m ;; k" := (bind m (fun x => k))
  (at level 61, m at next level, right associativity) : result_scope.
Open Scope result_scope.

Fixpoint mapM {A B : Type} (f : A -> result B) (l : list A) : result (list B) :=
  match l with
  | [] => ret []
  | a :: l' => b <- f a ;; bs <- mapM f l' ;; ret (b :: bs)
  end.

Definition cls_name (c : cls) : string :=
  match c with
  | User => "User" | BlogEntry => "BlogEntry" | Comment => "Comment"
  | RecentAction => "RecentAction" | RatingChange => "RatingChange"
  | Contest => "Contest" | Member => "Member" | Party => "Party"
  | Problem => "Problem" | ProblemStatistics => "ProblemStatistics"
  | Submission => "Submission" | Hack => "Hack"
  | ProblemResult => "ProblemResult" | RanklistRow => "RanklistRow"
  end.

(** [type(v).__name__]. *)
Definition type_name (v : pyval) : string :=
  match v with
  | PJson JNull => "NoneType"
  | PJson (JBool _) => "bool"
  | PJson (JNum _) => "int"
  | PJson (JStr _) => "str"
  | PJson (JArr _) => "list"
  | PJson (JObj _) => "dict"
  | PList _ => "list"
  | PObj c _ => cls_name c
  end.

Definition wrap_items (m : list (string * json)) : dict pyval :=
  map (fun kv => (fst kv, PJson (snd kv))) m.

(** [json.items()]: only a [dict] has the method. *)
Definition items (json : pyval) : result (list (string * pyval)) :=
  match json with
  | PJson (JObj m) => ret (wrap_items m)
  | _ => raise (AttributeError ("'" ++ type_name json ++ "' object has no attribute 'items'"))
  end.

(** [iter(x)], as [map] and [list] use it: a list yields its elements, a
    [dict] its keys, a [str] its characters. *)
Definition iter (x : pyval) : result (list pyval) :=
  match x with
  | PJson (JArr l) => ret (map PJson l)
  | PJson (JObj m) => ret (map (fun kv => PJson (JStr (fst kv))) m)
  | PJson (JStr s) => ret (map (fun c => PJson (JStr (String c ""))) (list_ascii_of_string s))
  | PList l => ret l
  | _ => raise (TypeError ("'" ++ type_name x ++ "' object is not iterable"))
  end.

(** [len(x)]. *)
Definition len (x : pyval) : result nat :=
  match x with
  | PJson (JArr l) => ret (List.length l)
  | PJson (JObj m) => ret (List.length m)
  | PJson (JStr s) => ret (String.length s)
  | PList l => ret (List.length l)
  | _ => raise (TypeError ("object of type '" ++ type_name x ++ "' has no len()"))
  end.

(** [x[key]] with a [str] key. *)
Definition getitem (x : pyval) (key : string) : result pyval :=
  match x with
  | PJson (JObj m) =>
      match dict_get m key with
      | Some v => ret (PJson v)
      | None => raise (KeyError key)
      end
  | PJson (JArr _) | PList _ =>
      raise (TypeError "list indices must be integers or slices, not str")
  | PJson (JStr _) => raise (TypeError "string indices must be integers, not 'str'")
  | _ => raise (TypeError ("'" ++ type_name x ++ "' object is not subscriptable"))
  end.

(** [x[0]]. *)
Definition getitem0 (x : pyval) : result pyval :=
  match x with
  | PJson (JArr (j :: _)) => ret (PJson j)
  | PList (v :: _) => ret v
  | PJson (JStr (String c _)) => ret (PJson (JStr (String c "")))
  | PJson (JArr []) | PList [] => raise (IndexError "list index out of range")
  | PJson (JStr EmptyString) => raise (IndexError "string index out of range")
  | PJson (JObj _) => raise (KeyError "0")
  | _ => raise (TypeError ("'" ++ type_name x ++ "' object is not subscriptable"))
  end.

(** [setattr(self, name, value)] on an instance of a record class.  Three
    names are data descriptors of every such instance and are not stored
    in its attribute dictionary: [__class__] and [__weakref__] refuse the
    assignment, [__dict__] replaces the attribute dictionary when the value
    is a [dict] (this model does not track that the instance then shares
    it with the payload). *)
Definition setattr (self : dict pyval) (name : string) (value : pyval) : result (dict pyval) :=
  if String.eqb name "__class__" then
    raise (TypeError ("__class__ must be set to a class, not '" ++ type_name value ++ "' object"))
  else if String.eqb name "__weakref__" then
    raise (AttributeError "attribute '__weakref__' of objects is not writable")
  else if String.eqb name "__dict__" then
    match value with
    | PJson (JObj m) => ret (wrap_items m)
    | _ => raise (TypeError ("__dict__ must be set to a dictionary, not a '" ++ type_name value ++ "'"))
    end
  else ret (dict_set self name value).

(** [self.name] and [hasattr(self, name)] for the names the source looks
    up ([blogEntry], [comment], [members], [problem], [author], [hacker],
    [defender], [party], [problemResults]): none is defined by a class, so
    only the attribute dictionary of the instance is searched. *)
Definition getattr (self : dict pyval) (name : string) : result pyval :=
  match dict_get self name with
  | Some v => ret v
  | None => raise (AttributeError ("object has no attribute '" ++ name ++ "'"))
  end.

Definition hasattr (self : dict pyval) (name : string) : bool := dict_has self name.

(* ================================================================= *)
(** ** The response records *)

(** The loop of [CodeforcesResponse.__init__]. *)
Fixpoint setattr_all (self : dict pyval) (its : list (string * pyval)) : result (dict pyval) :=
  match its with
  | [] => ret self
  | (name, value) :: its' => self' <- setattr self name value ;; setattr_all self' its'
  end.

(** [CodeforcesResponse.__init__]: the attribute dictionary of the new
    instance. *)
Definition CodeforcesResponse_init (json : pyval) : result (dict pyval) :=
  its <- items json ;; setattr_all [] its.

(** Construction of an instance of a class that inherits [__init__]. *)
Definition new_plain (c : cls) (json : pyval) : result pyval :=
  self <- CodeforcesResponse_init json ;; ret (PObj c self).

(** [list(map(f, xs))]. *)
Definition list_map (f : pyval -> result pyval) (xs : pyval) : result pyval :=
  l <- iter xs ;; rs <- mapM f l ;; ret (PList rs).

(** [Party.__init__]. *)
Definition Party_init (json : pyval) : result (dict pyval) :=
  self <- CodeforcesResponse_init json ;;
  members <- getattr self "members" ;;
  ms <- list_map (new_plain Member) members ;;
  setattr self "members" ms.

Definition new_Party (json : pyval) : result pyval :=
  self <- Party_init json ;; ret (PObj Party self).

(** [RecentAction.__init__]. *)
Definition RecentAction_init (json : pyval) : result (dict pyval) :=
  self <- CodeforcesResponse_init json ;;
  self <- (if hasattr self "blogEntry" then
             raw <- getattr self "blogEntry" ;;
             b <- new_plain BlogEntry raw ;;
             setattr self "blogEntry" b
           else ret self) ;;
  if hasattr self "comment" then
    raw <- getattr self "comment" ;;
    c <- new_plain Comment raw ;;
    setattr self "comment" c
  else ret self.

(** [Submission.__init__]. *)
Definition Submission_init (json : pyval) : result (dict pyval) :=
  self <- CodeforcesResponse_init json ;;
  raw <- getattr self "problem" ;;
  p <- new_plain Problem raw ;;
  self <- setattr self "problem" p ;;
  raw <- getattr self "author" ;;
  a <- new_Party raw ;;
  setattr self "author" a.

(** [Hack.__init__]. *)
Definition Hack_init (json : pyval) : result (dict pyval) :=
  self <- CodeforcesResponse_init json ;;
  raw <- getattr self "hacker" ;;
  h <- new_Party raw ;;
  self <- setattr self "hacker" h ;;
  raw <- getattr self "defender" ;;
  d <- new_Party raw ;;
  setattr self "defender" d.

(** [RanklistRow.__init__]. *)
Definition RanklistRow_init (json : pyval) : result (dict pyval) :=
  self <- CodeforcesResponse_init json ;;
  raw <- getattr self "party" ;;
  p <- new_Party raw ;;
  self <- setattr self "party" p ;;
  raw <- getattr self "problemResults" ;;
  rs <- list_map (new_plain ProblemResult) raw ;;
  setattr self "problemResults" rs.

(** [C(json)] for a record class [C]. *)
Definition new (c : cls) (json : pyval) : result pyval :=
  match c with
  | Party => new_Party json
  | RecentAction => self <- RecentAction_init json ;; ret (PObj RecentAction self)
  | Submission => self <- Submission_init json ;; ret (PObj Submission self)
  | Hack => self <- Hack_init json ;; ret (PObj Hack self)
  | RanklistRow => self <- RanklistRow_init json ;; ret (PObj RanklistRow self)
  | _ => new_plain c json
  end.

(* ================================================================= *)
(** ** Transport *)

(** What [requests.get] returns: [ok], [status_code], and the body as
    [Response.json()] parses it ([None] when it is not JSON). *)
Record response : Type := mkResponse {
  ok : bool;
  status_code : Z;
  body : option json
}.

(** The environment of one call: [now] is [int(time())], [rng i] the
    [i]-th draw of [SystemRandom], [http_request] is [requests.get]. *)
Record world : Type := mkWorld {
  now : Z;
  rng : nat -> nat;
  http_request : string -> result response
}.

(** The attribute [last_api] of a [CodeforcesAPI] object: not yet set, the
    [Response] object, or the parsed JSON. *)
Inductive last : Type :=
| Unset
| LastResponse (r : response)
| LastJson (j : json).

(** A [CodeforcesAPI] object, with the trace [sent] of the URLs it has
    requested. *)
Record api : Type := mkApi {
  conf : config;
  last_api : last;
  sent : list string
}.

(** Methods run in a state and error monad: an exception keeps the state
    reached when it is raised. *)
Definition M (A : Type) : Type := api -> result A * api.

Definition mret {A : Type} (a : A) : M A := fun self => (ret a, self).

Definition mraise {A : Type} (e : exn) : M A := fun self => (raise e, self).

Definition mbind {A B : Type} (m : M A) (f : A -> M B) : M B :=
  fun self =>
    match m self with
    | (inl e, self') => (inl e, self')
    | (inr a, self') => f a self'
    end.

Definition lift {A : Type} (r : result A) : M A := fun self => (r, self).

Notation "x <~ m ;; k" := (mbind m (fun x => k))
  (at level 61, m at next level, right associativity).

Definition set_last_api (l : last) : M unit :=
  fun self => (ret tt, mkApi (conf self) l (sent self)).

(** [requests.get(url)], recorded in the trace. *)
Definition http_get (w : world) (url : string) : M response :=
  fun self => (http_request w url, mkApi (conf self) (last_api self) (sent self ++ [url])).

Definition spaces (n : nat) : string := string_of_list_ascii (repeat " "%char n).

Definition str_nat (n : nat) : string := str (AInt (Z.of_nat n)).

(** The constructor of [CodeforcesAPI]: the [lang] setter raises on a
    language other than ["en"] and ["ru"]. *)
Definition CodeforcesAPI (key secret : option string) (lang : string) : result api :=
  if lang_ok lang then ret (mkApi (mkConfig key secret lang) Unset [])
  else
    let q := String "034"%char "" in
    raise (TypeError ("Language can be only " ++ q ++ "en" ++ q ++ " " ++ spaces 29
                      ++ "or " ++ q ++ "ru" ++ q ++ ", not " ++ lang)).

Definition _api_link : string := "http://codeforces.com/api/".

(** [self.last_api.status_code]. *)
Definition last_status_code : M Z :=
  fun self =>
    match last_api self with
    | LastResponse r => (ret (status_code r), self)
    | LastJson j =>
        (raise (AttributeError ("'" ++ type_name (PJson j) ++ "' object has no attribute 'status_code'")), self)
    | Unset => (raise (AttributeError "object has no attribute 'last_api'"), self)
    end.

(** [CodeforcesAPI._check_request]. *)
Definition _check_request (request : response) : M unit :=
  if negb (ok request) then
    code <~ last_status_code ;;
    mraise (ConnectionError ("Request status" ++ spaces 35 ++ "is " ++ str (AInt code)) None)
  else mret tt.

(** [Response.json()]. *)
Definition response_json (r : response) : result json :=
  match body r with
  | Some j => ret j
  | None => raise (ValueError "Expecting value")
  end.

(** [x != s] for a [str] literal [s]. *)
Definition ne_str (x : pyval) (s : string) : bool :=
  match x with
  | PJson (JStr y) => negb (String.eqb y s)
  | _ => true
  end.

(** [self.last_api[key]]. *)
Definition last_api_item (key : string) : M pyval :=
  fun self =>
    match last_api self with
    | LastJson j => (getitem (PJson j) key, self)
    | LastResponse _ => (raise (TypeError "'Response' object is not subscriptable"), self)
    | Unset => (raise (AttributeError "object has no attribute 'last_api'"), self)
    end.

(** The URL that [request_api] asks for. *)
Definition api_url (w : world) (self : api) (method : string) (kwargs : dict value) : string :=
  _api_link ++ method ++ "?" ++ _url_api_request (conf self) (now w) (rng w) method kwargs.

(** [CodeforcesAPI.request_api]. *)
Definition request_api (w : world) (method : string) (kwargs : dict value) : M json :=
  fun self =>
    let url := api_url w self method kwargs in
    (r <~ http_get w url ;;
     _ <~ set_last_api (LastResponse r) ;;
     _ <~ _check_request r ;;
     j <~ lift (response_json r) ;;
     _ <~ set_last_api (LastJson j) ;;
     status <~ last_api_item "status" ;;
     if ne_str status "OK" then
       comment <~ last_api_item "comment" ;;
       mraise (ConnectionError ("Codeforces API error:" ++ spaces 35 ++ "{}") (Some comment))
     else mret j) self.

(* ================================================================= *)
(** ** The method surface *)

(** [isinstance(handles, str)] and the rebinding [handles = [handles]]. *)
Definition wrap_str (handles : value) : value :=
  match handles with
  | VAtom (AStr h) => VList [AStr h]
  | _ => handles
  end.

(** [len(x)] on a parameter value. *)
Definition len_value (x : value) : result nat :=
  match x with
  | VList l => ret (List.length l)
  | VAtom (AStr s) => ret (String.length s)
  | VAtom (AInt _) => raise (TypeError "object of type 'int' has no len()")
  | VAtom (ABool _) => raise (TypeError "object of type 'bool' has no len()")
  | VAtom ANone => raise (TypeError "object of type 'NoneType' has no len()")
  end.

(** [CodeforcesAPI.user_info]. *)
Definition user_info (w : world) (handles : value) : M pyval :=
  let handles := wrap_str handles in
  n <~ lift (len_value handles) ;;
  if Z.ltb 10000 (Z.of_nat n) then
    mraise (TypeError ("handles len is " ++ str_nat n ++ "." ++ spaces 30 ++ "Maximum: 10000"))
  else
    _ <~ request_api w "user.info" [("handles", handles)] ;;
    result <~ last_api_item "result" ;;
    n <~ lift (len result) ;;
    if Nat.eqb n 1 then
      first <~ lift (getitem0 result) ;;
      lift (new User first)
    else
      lift (list_map (new User) result).

(** The check [handles is not None and len(handles) > 10000]. *)
Definition too_many_handles (handles : value) : result (option nat) :=
  if negb (is_None handles) then
    n <- len_value handles ;;
    ret (if Z.ltb 10000 (Z.of_nat n) then Some n else None)
  else ret None.

(** [CodeforcesAPI.contest_standings]. *)
Definition contest_standings (w : world)
    (contestId from_row count handles room showUnofficial : value) : M pyval :=
  let handles := wrap_str handles in
  over <~ lift (too_many_handles handles) ;;
  match over with
  | Some n =>
      mraise (TypeError ("handles len is " ++ str_nat n ++ "." ++ spaces 29 ++ "Maximum: 10000"))
  | None =>
      let kwargs := [("contestId", contestId); ("from", from_row); ("count", count);
                     ("handles", handles); ("room", room);
                     ("showUnofficial", showUnofficial)] in
      _ <~ request_api w "contest.standings" kwargs ;;
      result <~ last_api_item "result" ;;
      raw <~ lift (getitem result "contest") ;;
      contest <~ lift (new Contest raw) ;;
      result <~ last_api_item "result" ;;
      raw <~ lift (getitem result "problems") ;;
      problems <~ lift (list_map (new Problem) raw) ;;
      result <~ last_api_item "result" ;;
      raw <~ lift (getitem result "rows") ;;
      rows <~ lift (list_map (new RanklistRow) raw) ;;
      mret (PList [contest; problems; rows])
  end.

(** [CodeforcesAPI.problemset_recentStatus]. *)
Definition problemset_recentStatus (w : world) (count : Z) (problemsetName : value) : M pyval :=
  if Z.ltb 1000 count then
    mraise (TypeError ("count is " ++ str (AInt count) ++ ". Maximim: 1000"))
  else
    _ <~ request_api w "problemset.recentStatus"
           [("count", VAtom (AInt count)); ("problemsetName", problemsetName)] ;;
    result <~ last_api_item "result" ;;
    lift (list_map (new Submission) result).

(** [CodeforcesAPI.recentActions]. *)
Definition recentActions (w : world) (maxCount : Z) : M pyval :=
  if Z.ltb 100 maxCount then
    mraise (TypeError ("maxCount is " ++ str (AInt maxCount) ++ ". Maximum: 100"))
  else
    _ <~ request_api w "recentActions" [("maxCount", VAtom (AInt maxCount))] ;;
    result <~ last_api_item "result" ;;
    lift (list_map (new RecentAction) result).

(* ================================================================= *)
(** ** Shapes of payloads *)

(** The names that [setattr] stores in the attribute dictionary. *)
Definition plain_name (name : string) : bool :=
  negb (String.eqb name "__class__") &&
  negb (String.eqb name "__weakref__") &&
  negb (String.eqb name "__dict__").

(** Every key occurs once, as in a Python [dict]. *)
Fixpoint unique (ks : list string) : bool :=
  match ks with
  | [] => true
  | k :: ks' => negb (existsb (String.eqb k) ks') && unique ks'
  end.

(** A JSON object as [json.loads] gives it, whose keys are ordinary
    attribute names. *)
Definition mapping (j : json) : bool :=
  match j with
  | JObj m => forallb plain_name (keys m) && unique (keys m)
  | _ => false
  end.

Definition fields (j : json) : list (string * json) :=
  match j with
  | JObj m => m
  | _ => []
  end.

Definition elements (j : json) : list json :=
  match j with
  | JArr l => l
  | _ => []
  end.

(** A JSON array all of whose elements satisfy [p]. *)
Definition list_of (p : json -> bool) (j : json) : bool :=
  match j with
  | JArr l => forallb p l
  | _ => false
  end.

(** The field [k] is present and its value satisfies [p]. *)
Definition field (m : list (string * json)) (k : string) (p : json -> bool) : bool :=
  match dict_get m k with
  | Some j => p j
  | None => false
  end.

(** The field [k] is absent, or its value satisfies [p]. *)
Definition optional_field (m : list (string * json)) (k : string) (p : json -> bool) : bool :=
  match dict_get m k with
  | Some j => p j
  | None => true
  end.

(** A party: a mapping whose [members] is a list of mappings. *)
Definition party_shaped (j : json) : bool :=
  mapping j && field (fields j) "members" (list_of mapping).

(** The payloads on which the constructor of class [c] is expected to
    work: a mapping whose structural fields hold mappings or lists of
    mappings, as the constructor wraps them. *)
Definition well_shaped (c : cls) (j : json) : bool :=
  mapping j &&
  match c with
  | Party => field (fields j) "members" (list_of mapping)
  | Submission =>
      field (fields j) "problem" mapping && field (fields j) "author" party_shaped
  | Hack =>
      field (fields j) "hacker" party_shaped && field (fields j) "defender" party_shaped
  | RanklistRow =>
      field (fields j) "party" party_shaped &&
      field (fields j) "problemResults" (list_of mapping)
  | RecentAction =>
      optional_field (fields j) "blogEntry" mapping &&
      optional_field (fields j) "comment" mapping
  | _ => true
  end.

(** The fields that the constructor of class [c] reads unconditionally. *)
Definition required (c : cls) : list string :=
  match c with
  | Party => ["members"]
  | Submission => ["problem"; "author"]
  | Hack => ["hacker"; "defender"]
  | RanklistRow => ["party"; "problemResults"]
  | _ => []
  end.

(** The fields that the constructor of class [c] replaces by records. *)
Definition wrapped (c : cls) : list string :=
  match c with
  | RecentAction => ["blogEntry"; "comment"]
  | _ => required c
  end.

(** A successful answer of the service carrying [result]. *)
Definition ok_response (r : response) (result : json) : Prop :=
  ok r = true /\
  exists m, body r = Some (JObj m) /\
            dict_get m "status" = Some (JStr "OK") /\
            dict_get m "result" = Some result.

(** The record that wraps the mapping [j] without any nested wrapping. *)
Definition plain_record (c : cls) (j : json) : pyval :=
  PObj c (wrap_items (fields j)).

(** The [Party] record of a party-shaped payload: its [members] are
    [Member] records. *)
Definition party_record (j : json) : pyval :=
  match dict_get (fields j) "members" with
  | Some ms =>
      PObj Party (dict_set (wrap_items (fields j)) "members"
                           (PList (map (plain_record Member) (elements ms))))
  | None => PObj Party (wrap_items (fields j))
  end.

(** The attributes [self] have the names of the fields of [m], and hold
    the raw value of every field outside [ws]. *)
Definition same_fields (ws : list string) (m : list (string * json)) (self : dict pyval) : Prop :=
  (forall k, hasattr self k = dict_has m k) /\
  (forall k v, ~ In k ws -> dict_get m k = Some v -> dict_get self k = Some (PJson v)).

(* ================================================================= *)
(** ** A service for the examples *)

(** The answer [{"status": "OK", "result": result}] with HTTP status 200. *)
Definition answer (result : json) : response :=
  mkResponse true 200 (Some (JObj [("status", JStr "OK"); ("result", result)])).

(** A world whose service gives that answer to every request. *)
Definition service (result : json) : world :=
  mkWorld 1600000000 (fun _ => 26) (fun _ => inr (answer result)).

(** [CodeforcesAPI()]: no key, no secret, language ["en"], nothing sent. *)
Definition anonymous : api := mkApi (mkConfig None None "en") Unset [].

(** The result of [contest.standings] used in the examples. *)
Definition standings_566 : json :=
  JObj [("contest", JObj [("id", JNum 566); ("name", JStr "VK Cup 2015 - Finals")]);
        ("problems", JArr [JObj [("contestId", JNum 566); ("index", JStr "A")]]);
        ("rows",
         JArr [JObj [("party", JObj [("members", JArr [JObj [("handle", JStr "tourist")]])]);
                     ("rank", JNum 1);
                     ("problemResults", JArr [JObj [("points", JNum 500)]])]])].

(* ================================================================= *)
(** ** The encoder as the specification words it *)

(** The serialized value: a list as the [";"]-join of the string
    conversions of its elements, a scalar as its string conversion. *)
Definition spec_value_string (v : value) : string :=
  match v with
  | VList l => join ";" (map str l)
  | VAtom a => str a
  end.

(** The [key=value] pair strings of the parameters whose value is not
    [None], in the order of the mapping. *)
Definition spec_pairs (kwargs : dict value) : list string :=
  map (fun kv => fst kv ++ "=" ++ spec_value_string (snd kv))
      (filter (fun kv => negb (is_None (snd kv))) kwargs).

(* ================================================================= *)
(** ** The other endpoint methods *)

(** [list(map(C, self.last_api['result']))]. *)
Definition records_of (c : cls) : M pyval :=
  result <~ last_api_item "result" ;;
  lift (list_map (new c) result).

(** [CodeforcesAPI.blogEntry_comments]. *)
Definition blogEntry_comments (w : world) (blogEntryId : value) : M pyval :=
  _ <~ request_api w "blogEntry.comments" [("blogEntryId", blogEntryId)] ;;
  records_of Comment.

(** [CodeforcesAPI.blogEntry_view]. *)
Definition blogEntry_view (w : world) (blogEntryId : value) : M pyval :=
  _ <~ request_api w "blogEntry.view" [("blogEntryId", blogEntryId)] ;;
  result <~ last_api_item "result" ;;
  lift (new BlogEntry result).

(** [CodeforcesAPI.contest_hacks]. *)
Definition contest_hacks (w : world) (contestId : value) : M pyval :=
  _ <~ request_api w "contest.hacks" [("contestId", contestId)] ;;
  records_of Hack.

(** [CodeforcesAPI.contest_list]; [gym] defaults to [False]. *)
Definition contest_list (w : world) (gym : value) : M pyval :=
  _ <~ request_api w "contest.list" [("gym", gym)] ;;
  records_of Contest.

(** [CodeforcesAPI.contest_ratingChanges]. *)
Definition contest_ratingChanges (w : world) (contestId : value) : M pyval :=
  _ <~ request_api w "contest.ratingChanges" [("contestId", contestId)] ;;
  records_of RatingChange.

(** [CodeforcesAPI.contest_status]. *)
Definition contest_status (w : world) (contestId handle from_sub count : value) : M pyval :=
  let kwargs := [("contestId", contestId); ("handle", handle); ("from", from_sub);
                 ("count", count)] in
  _ <~ request_api w "contest.status" kwargs ;;
  records_of Submission.

(** [CodeforcesAPI.problemset_problems]. *)
Definition problemset_problems (w : world) (tags problemsetName : value) : M pyval :=
  _ <~ request_api w "problemset.problems"
         [("tags", tags); ("problemsetName", problemsetName)] ;;
  result <~ last_api_item "result" ;;
  raw <~ lift (getitem result "problems") ;;
  problems <~ lift (list_map (new Problem) raw) ;;
  result <~ last_api_item "result" ;;
  raw <~ lift (getitem result "problemStatistics") ;;
  statistics <~ lift (list_map (new ProblemStatistics) raw) ;;
  mret (PList [problems; statistics]).

(** [CodeforcesAPI.user_blogEntries]. *)
Definition user_blogEntries (w : world) (handle : value) : M pyval :=
  _ <~ request_api w "user.blogEntries" [("handle", handle)] ;;
  records_of BlogEntry.

(** [CodeforcesAPI.user_friends]; [onlyOnline] defaults to [False]. *)
Definition user_friends (w : world) (onlyOnline : value) : M pyval :=
  _ <~ request_api w "user.friends" [("onlyOnline", onlyOnline)] ;;
  last_api_item "result".

(** [CodeforcesAPI.user_ratedList]; [active_only] defaults to [False]. *)
Definition user_ratedList (w : world) (active_only : value) : M pyval :=
  _ <~ request_api w "user.ratedList" [("activeOnly", active_only)] ;;
  records_of User.

(** [CodeforcesAPI.user_rating]. *)
Definition user_rating (w : world) (handle : value) : M pyval :=
  _ <~ request_api w "user.rating" [("handle", handle)] ;;
  records_of RatingChange.

(** [CodeforcesAPI.user_status]. *)
Definition user_status (w : world) (handle from_sub count : value) : M pyval :=
  let kwargs := [("handle", handle); ("from", from_sub); ("count", count)] in
  _ <~ request_api w "user.status" kwargs ;;
  records_of Submission.

(** A run of a method returns the list of the records of class [c] made
    from [items], one for each, in order. *)
Definition returns_records (c : cls) (run : result pyval * api) (items : list json) : Prop :=
  exists rs,
    fst run = inr (PList rs) /\
    List.length rs = List.length items /\
    Forall (fun r => exists self, r = PObj c self) rs.

(* ================================================================= *)
(** ** The formatting helpers of [ext_CodeforcesAPI] *)

(** [x.name] on a value: the instances of the record classes have the
    attributes of their dictionary; no other value has an attribute of
    the names the helpers read. *)
Definition attr (x : pyval) (name : string) : result pyval :=
  match x with
  | PObj _ self => getattr self name
  | _ => raise (AttributeError ("'" ++ type_name x ++ "' object has no attribute '"
                                    ++ name ++ "'"))
  end.

(** [x != 0]. *)
Definition ne0 (x : pyval) : bool :=
  match x with
  | PJson (JNum z) => negb (Z.eqb z 0)
  | PJson (JBool b) => b
  | _ => true
  end.

(** The truth value of [x], as [or] tests it. *)
Definition truthy (x : pyval) : bool :=
  match x with
  | PJson JNull => false
  | PJson (JBool b) => b
  | PJson (JNum z) => negb (Z.eqb z 0)
  | PJson (JStr s) => negb (String.eqb s "")
  | PJson (JArr l) => negb (Nat.eqb (List.length l) 0)
  | PJson (JObj m) => negb (Nat.eqb (List.length m) 0)
  | PList l => negb (Nat.eqb (List.length l) 0)
  | PObj _ _ => true
  end.

(** [s.ljust(2)]. *)
Definition ljust2 (s : string) : string := s ++ spaces (2 - String.length s).

(** ['{:<2}'.format(x)]: integers, booleans (as integers) and strings are
    padded on the right to two characters; the other types refuse the
    format. *)
Definition format_left2 (x : pyval) : result string :=
  match x with
  | PJson (JNum z) => ret (ljust2 (str (AInt z)))
  | PJson (JBool b) => ret (ljust2 (if b then "1" else "0"))
  | PJson (JStr s) => ret (ljust2 s)
  | _ => raise (TypeError ("unsupported format string passed to " ++ type_name x
                           ++ ".__format__"))
  end.

(** ['{:02d}'.format(z)] on an integer. *)
Definition format_02d (z : Z) : string :=
  if Z.leb 0 z && Z.ltb z 10 then "0" ++ str (AInt z) else str (AInt z).

(** The integer that arithmetic sees in [x]. *)
Definition as_int (op : string) (x : pyval) : result Z :=
  match x with
  | PJson (JNum z) => ret z
  | PJson (JBool b) => ret (if b then 1%Z else 0%Z)
  | _ => raise (TypeError ("unsupported operand type(s) for " ++ op ++ ": '"
                           ++ type_name x ++ "' and 'int'"))
  end.

(** [ext_CodeforcesAPI._hack_format]. *)
Definition _hack_format (succ unsucc : Z) : string :=
  if Z.eqb succ 0 then
    if Z.eqb unsucc 0 then ""
    else "-" ++ str (AInt unsucc)
  else
    if Z.eqb unsucc 0 then "+" ++ str (AInt succ)
    else "+" ++ str (AInt succ) ++ ":-" ++ str (AInt unsucc).

(** [ext_CodeforcesAPI._problem_format].  The arguments of [format] are
    evaluated before any of them is formatted. *)
Definition _problem_format (problem : pyval) : result string :=
  points <- attr problem "points" ;;
  if ne0 points then
    rejected <- attr problem "rejectedAttemptCount" ;;
    let shown := if truthy rejected then rejected else PJson (JStr "") in
    best <- attr problem "bestSubmissionTimeSeconds" ;;
    best <- as_int "//" best ;;
    let hours := (best / 3600)%Z in
    best <- attr problem "bestSubmissionTimeSeconds" ;;
    best <- as_int "%" best ;;
    let minutes := ((best mod 3600) / 60)%Z in
    attempts <- format_left2 shown ;;
    ret ("+" ++ attempts ++ " (" ++ format_02d hours ++ ":" ++ format_02d minutes ++ ")")
  else
    rejected <- attr problem "rejectedAttemptCount" ;;
    if ne0 rejected then
      attempts <- format_left2 rejected ;;
      ret ("-" ++ attempts)
    else ret "".

(** An item of [str.join]: it has to be a [str]. *)
Definition as_str (x : pyval) : result string :=
  match x with
  | PJson (JStr s) => ret s
  | _ => raise (TypeError ("sequence item: expected str instance, " ++ type_name x
                           ++ " found"))
  end.

(** [ext_CodeforcesAPI._party_format]: the generator is run to its end
    before [join] looks at the items. *)
Definition _party_format (party : pyval) : result string :=
  members <- attr party "members" ;;
  members <- iter members ;;
  handles <- mapM (fun i => attr i "handle") members ;;
  handles <- mapM as_str handles ;;
  ret (join ", " handles).

(** [chr(n)], for the code points of the model ([n] below 256). *)
Definition chr (n : nat) : string := String (ascii_of_nat n) "".

(** [ext_CodeforcesAPI._problem_symb]; the labels stay within the code
    points of the model up to [num = 191]. *)
Definition _problem_symb (num : Z) : list string :=
  map (fun i => chr (65 + i)) (seq 0 (Z.to_nat num)).

(* ================================================================= *)
(** ** Pages *)

Definition _site_link : string := "http://codeforces.com/".

(** The [Response] of a page request, with its [text]. *)
Record page : Type := mkPage {
  page_response : response;
  text : string
}.

(** An [ext_CodeforcesAPI] object. *)
Record ext_api : Type := mkExt {
  base : api;
  _handle : option string;
  _workingDir : option string;
  last_page : option page;
  last_contestStatements : option string
}.

(** [ext_CodeforcesAPI.__init__]. *)
Definition ext_CodeforcesAPI (handle workingDir key secret : option string) (lang : string)
  : result ext_api :=
  b <- CodeforcesAPI key secret lang ;;
  ret (mkExt b handle workingDir None None).

(** [ext_CodeforcesAPI.get_page]; [fetch url params] is
    [requests.get(url, params=params)]. *)
Definition get_page (fetch : string -> dict value -> result page)
    (link : string) (params : dict value) (self : ext_api) : result string * ext_api :=
  let params := dict_set params "locale" (VAtom (AStr (_lang (conf (base self))))) in
  match fetch (_site_link ++ link) params with
  | inl e => (inl e, self)
  | inr p =>
      let self := mkExt (base self) (_handle self) (_workingDir self) (Some p)
                        (last_contestStatements self) in
      match _check_request (page_response p) (base self) with
      | (inl e, b) =>
          (inl e, mkExt b (_handle self) (_workingDir self) (last_page self)
                        (last_contestStatements self))
      | (inr _, b) =>
          (inr (text p), mkExt b (_handle self) (_workingDir self) (last_page self)
                               (last_contestStatements self))
      end
  end.

(** [ext_CodeforcesAPI.get_contestStatements]. *)
Definition get_contestStatements (fetch : string -> dict value -> result page)
    (contestId : Z) (self : ext_api) : result string * ext_api :=
  match get_page fetch ("contest/" ++ str (AInt contestId) ++ "/problems") [] self with
  | (inl e, self) => (inl e, self)
  | (inr html, self) =>
      (inr html, mkExt (base self) (_handle self) (_workingDir self) (last_page self)
                       (Some html))
  end.

(* ================================================================= *)
(** ** Sanity checks *)

Example sha512_empty :
  sha512_hexdigest (encode_utf8 "") =
  "cf83e1357eefb8bdf1542850d66d8007d620e4050b5715dc83f4a921d36ce9ce47d0d13c5d85f2b0ff8318d2877eec2f63b931bd47417a81a538327af927da3e".
Proof. vm_compute. reflexivity. Qed.

Example sha512_abc :
  sha512_hexdigest (encode_utf8 "abc") =
  "ddaf35a193617abacc417349ae20413112e6fa4e89a97ea20a9eeee64b55d39a2192992a274fc1a836ba3c23a3feebbd454d4423643ce80e2a9ac94fa54ca49f".
Proof. vm_compute. reflexivity. Qed.

Example CodeforcesAPI_default : CodeforcesAPI None None "en" = inr anonymous.
Proof. reflexivity. Qed.

Example CodeforcesAPI_bad_lang :
  exists msg, CodeforcesAPI None None "de" = inl (TypeError msg).
Proof. eexists. reflexivity. Qed.

Example str_examples :
  map str [AInt 0; AInt (-5); AInt 1600000000; ABool true; AStr "tourist"; ANone]
  = ["0"; "-5"; "1600000000"; "True"; "tourist"; "None"].
Proof. reflexivity. Qed.

Example get_url_example :
  _get_url [("handles", VList [AStr "a"; AStr "b"; AStr "c"]);
            ("count", VAtom ANone); ("from", VAtom (AInt 1));
            ("showUnofficial", VAtom (ABool true)); ("Room", VAtom (AInt 3))]
  = "Room=3&from=1&handles=a;b;c&showUnofficial=True".
Proof. reflexivity. Qed.

Example sha512_two_blocks :
  sha512_hexdigest (repeat 97%Z 200) =
  "4b11459c33f52a22ee8236782714c150a3b2c60994e9acee17fe68947a3e6789f31e7668394592da7bef827cddca88c4e6f86e4df7ed1ae6cba71f3e98faee9f".
Proof. vm_compute. reflexivity. Qed.

(* ================================================================= *)
(** ** The order of strings and [sorted] *)

Lemma str_le_trans : forall a b c, str_le a b -> str_le b c -> str_le a c.
Proof.
  unfold str_le, String.leb.
  induction a as [|x a IH]; intros [|y b] [|z c]; simpl; try easy.
  unfold Ascii.compare.
  destruct (N.compare_spec (N_of_ascii x) (N_of_ascii y));
    destruct (N.compare_spec (N_of_ascii y) (N_of_ascii z));
    destruct (N.compare_spec (N_of_ascii x) (N_of_ascii z));
    try easy; try lia.
  apply IH.
Qed.

Lemma str_le_refl : forall a, str_le a a.
Proof.
  intro a. destruct (String.leb_total a a); assumption.
Qed.

Lemma str_le_antisym : forall a b, str_le a b -> str_le b a -> a = b.
Proof. exact String.leb_antisym. Qed.

Lemma sorted_StronglySorted : forall l, StronglySorted str_le (sorted l).
Proof.
  intro l. apply Sorted_StronglySorted.
  - intros a b c. apply str_le_trans.
  - apply Sorted_LocallySorted_iff. apply StringSort.LocallySorted_sort.
Qed.

Lemma sorted_Permutation : forall l, Permutation (sorted l) l.
Proof.
  intro l. symmetry. apply StringSort.Permuted_sort.
Qed.

(** A list of strings has one ascending arrangement. *)
Lemma StronglySorted_unique : forall l1 l2,
  StronglySorted str_le l1 -> StronglySorted str_le l2 ->
  Permutation l1 l2 -> l1 = l2.
Proof.
  induction l1 as [|a l1 IH]; intros l2 S1 S2 P.
  - apply Permutation_nil in P. now subst.
  - destruct l2 as [|b l2].
    + symmetry in P. apply Permutation_nil in P. discriminate.
    + inversion S1 as [|? ? S1' F1]; subst.
      inversion S2 as [|? ? S2' F2]; subst.
      assert (a = b) as ->.
      { apply str_le_antisym.
        - assert (In b (a :: l1)) as [->|Hb]
            by (eapply Permutation_in; [symmetry; exact P | now left]).
          + apply str_le_refl.
          + rewrite Forall_forall in F1. now apply F1.
        - assert (In a (b :: l2)) as [->|Ha]
            by (eapply Permutation_in; [exact P | now left]).
          + apply str_le_refl.
          + rewrite Forall_forall in F2. now apply F2. }
      f_equal. apply IH; trivial.
      now apply Permutation_cons_inv in P.
Qed.

Lemma sorted_Permutation_eq : forall l1 l2,
  Permutation l1 l2 -> sorted l1 = sorted l2.
Proof.
  intros l1 l2 P. apply StronglySorted_unique; try apply sorted_StronglySorted.
  rewrite (sorted_Permutation l1), (sorted_Permutation l2). exact P.
Qed.

(** In an ascending list, an element that is not below another one comes
    after it. *)
Lemma StronglySorted_after : forall l x y,
  StronglySorted str_le l -> In x l -> In y l -> ~ str_le y x ->
  exists l1 l2, l = (l1 ++ x :: l2)%list /\ In y l2.
Proof.
  induction l as [|a l IH]; intros x y S Hx Hy N; [contradiction|].
  inversion S as [|? ? S' F]; subst. rewrite Forall_forall in F.
  destruct Hx as [->|Hx].
  - exists [], l. split; [reflexivity|].
    destruct Hy as [->|Hy]; [|exact Hy].
    exfalso. apply N, str_le_refl.
  - destruct Hy as [->|Hy].
    + exfalso. apply N. now apply F.
    + destruct (IH x y S' Hx Hy N) as (l1 & l2 & -> & Hin).
      exists (a :: l1), l2. split; [reflexivity | exact Hin].
Qed.

(* ================================================================= *)
(** ** Dictionaries *)

Lemma dict_get_set : forall (V : Type) (d : dict V) k v k',
  dict_get (dict_set d k v) k' =
  if String.eqb k k' then Some v else dict_get d k'.
Proof.
  induction d as [|[k0 v0] d IH]; intros k v k'; simpl.
  - reflexivity.
  - destruct (String.eqb_spec k0 k) as [->|Hne]; simpl.
    + destruct (String.eqb k k'); reflexivity.
    + rewrite IH. destruct (String.eqb_spec k0 k') as [->|Hne'].
      * destruct (String.eqb_spec k k') as [->|]; [contradiction | reflexivity].
      * reflexivity.
Qed.

Lemma dict_get_In : forall (V : Type) (d : dict V) k v,
  dict_get d k = Some v -> In (k, v) d.
Proof.
  induction d as [|[k0 v0] d IH]; intros k v; simpl; [discriminate|].
  destruct (String.eqb_spec k0 k) as [->|Hne].
  - intros [= ->]. now left.
  - intro H. right. now apply IH.
Qed.

Lemma dict_set_new : forall (V : Type) (d : dict V) k v,
  dict_get d k = None -> dict_set d k v = (d ++ [(k, v)])%list.
Proof.
  induction d as [|[k0 v0] d IH]; intros k v; simpl; [reflexivity|].
  destruct (String.eqb k0 k); [discriminate|].
  intro H. now rewrite IH.
Qed.

(* ================================================================= *)
(** ** The canonical query encoder *)

Lemma _to_http_spec : forall param v,
  _to_http param v = param ++ "=" ++ spec_value_string v.
Proof. intros param [a|l]; reflexivity. Qed.

Lemma collect_spec : forall kwargs lst,
  fold_left collect_step kwargs lst = (lst ++ spec_pairs kwargs)%list.
Proof.
  unfold spec_pairs.
  induction kwargs as [|[param v] kwargs IH]; intro lst; simpl.
  - now rewrite app_nil_r.
  - rewrite IH. destruct (is_None v); simpl.
    + reflexivity.
    + rewrite <- app_assoc. simpl. now rewrite _to_http_spec.
Qed.

Lemma _sorted_str_kwargs_spec : forall kwargs,
  _sorted_str_kwargs kwargs = sorted (spec_pairs kwargs).
Proof.
  intro kwargs. unfold _sorted_str_kwargs. now rewrite collect_spec.
Qed.

Lemma spec_pairs_Permutation : forall kwargs kwargs',
  Permutation kwargs kwargs' -> Permutation (spec_pairs kwargs) (spec_pairs kwargs').
Proof.
  intros kwargs kwargs' P. unfold spec_pairs.
  apply Permutation_map. induction P; simpl.
  - constructor.
  - destruct (negb (is_None (snd x))); auto.
  - destruct (negb (is_None (snd x))), (negb (is_None (snd y))); auto.
    apply perm_swap.
  - etransitivity; eassumption.
Qed.

Lemma spec_pairs_app : forall d1 d2 : dict value,
  spec_pairs (d1 ++ d2)%list = (spec_pairs d1 ++ spec_pairs d2)%list.
Proof.
  intros d1 d2. unfold spec_pairs. now rewrite filter_app, map_app.
Qed.

Lemma In_sorted_str_kwargs : forall kwargs k v,
  In (k, v) kwargs -> is_None v = false ->
  In (_to_http k v) (_sorted_str_kwargs kwargs).
Proof.
  intros kwargs k v Hin Hv. rewrite _sorted_str_kwargs_spec.
  eapply Permutation_in; [symmetry; apply sorted_Permutation|].
  unfold spec_pairs. rewrite _to_http_spec.
  apply (in_map (fun kv => fst kv ++ "=" ++ spec_value_string (snd kv)) _ (k, v)).
  apply filter_In. split; [exact Hin|]. simpl. now rewrite Hv.
Qed.

(** C2: the canonical query encoder returns the ["&"]-join of the
    [key=value] pair strings of the parameters, where a parameter whose
    value is [None] is dropped, a list value is the [";"]-join of the string
    conversions of its elements, a scalar value is its string conversion,
    and the pair strings are in ascending lexicographic order of the whole
    pair string. *)
Theorem get_url_canonical : forall kwargs : dict value,
  exists pairs,
    _get_url kwargs = join "&" pairs /\
    Permutation pairs (spec_pairs kwargs) /\
    StronglySorted str_le pairs.
Proof.
  intro kwargs. exists (sorted (spec_pairs kwargs)). split; [|split].
  - unfold _get_url. now rewrite _sorted_str_kwargs_spec.
  - apply sorted_Permutation.
  - apply sorted_StronglySorted.
Qed.

(** C4: the canonical query encoder gives the same string on a parameter
    mapping and on any reordering of its entries. *)
Theorem get_url_permutation_invariant : forall kwargs kwargs' : dict value,
  Permutation kwargs kwargs' -> _get_url kwargs = _get_url kwargs'.
Proof.
  intros kwargs kwargs' P. unfold _get_url.
  rewrite !_sorted_str_kwargs_spec.
  f_equal. apply sorted_Permutation_eq. now apply spec_pairs_Permutation.
Qed.

Lemma get_url_permutation_invariant_witness :
  Permutation
    [("handles", VList [AStr "DmitryH"; AStr "Fefer_Ivan"]); ("lang", VAtom (AStr "en"));
     ("count", VAtom ANone)]
    [("lang", VAtom (AStr "en")); ("count", VAtom ANone);
     ("handles", VList [AStr "DmitryH"; AStr "Fefer_Ivan"])] /\
  _get_url [("handles", VList [AStr "DmitryH"; AStr "Fefer_Ivan"]); ("lang", VAtom (AStr "en"));
            ("count", VAtom ANone)] =
  _get_url [("lang", VAtom (AStr "en")); ("count", VAtom ANone);
            ("handles", VList [AStr "DmitryH"; AStr "Fefer_Ivan"])].
Proof.
  assert (P : Permutation
    [("handles", VList [AStr "DmitryH"; AStr "Fefer_Ivan"]); ("lang", VAtom (AStr "en"));
     ("count", VAtom ANone)]
    [("lang", VAtom (AStr "en")); ("count", VAtom ANone);
     ("handles", VList [AStr "DmitryH"; AStr "Fefer_Ivan"])]).
  { apply (Permutation_cons_append [_; _]). }
  split; [exact P | exact (get_url_permutation_invariant _ _ P)].
Defined.

(* ================================================================= *)
(** ** The request signer *)

Lemma get_In : forall s n,
  n < String.length s ->
  exists c, String.get n s = Some c /\ In c (list_ascii_of_string s).
Proof.
  induction s as [|a s IH]; intros n Hn; simpl in *; [lia|].
  destruct n as [|n].
  - exists a. split; [reflexivity | now left].
  - destruct (IH n) as (c & Hc & Hin); [lia|].
    exists c. split; [exact Hc | now right].
Qed.

Lemma choice_alphabet : forall r,
  exists c, choice (ascii_lowercase ++ digits) r = String c "" /\
            In c (list_ascii_of_string (ascii_lowercase ++ digits)).
Proof.
  intro r. unfold choice.
  destruct (get_In (ascii_lowercase ++ digits)
                   (r mod String.length (ascii_lowercase ++ digits)))
    as (c & Hc & Hin).
  - apply Nat.mod_upper_bound. discriminate.
  - exists c. rewrite Hc. split; [reflexivity | exact Hin].
Qed.

(** The nonce has six characters, each a lowercase letter or a digit. *)
Lemma rand_nonce_shape : forall rng,
  String.length (rand_nonce rng) = 6 /\
  Forall (fun c => In c (list_ascii_of_string (ascii_lowercase ++ digits)))
         (list_ascii_of_string (rand_nonce rng)).
Proof.
  intro rng. unfold rand_nonce.
  change (seq 0 6) with [0; 1; 2; 3; 4; 5]. cbn [map].
  destruct (choice_alphabet (rng 0)) as (c0 & E0 & I0).
  destruct (choice_alphabet (rng 1)) as (c1 & E1 & I1).
  destruct (choice_alphabet (rng 2)) as (c2 & E2 & I2).
  destruct (choice_alphabet (rng 3)) as (c3 & E3 & I3).
  destruct (choice_alphabet (rng 4)) as (c4 & E4 & I4).
  destruct (choice_alphabet (rng 5)) as (c5 & E5 & I5).
  rewrite E0, E1, E2, E3, E4, E5.
  split; [reflexivity|].
  cbn [join String.concat String.append list_ascii_of_string].
  repeat (apply Forall_cons; [assumption|]). apply Forall_nil.
Qed.

Lemma _url_api_request_signed : forall key secret lang now rng method kwargs,
  _url_api_request (mkConfig (Some key) (Some secret) lang) now rng method kwargs =
  _get_url (dict_set (signed_params lang key now kwargs) "apiSig"
              (VAtom (AStr (signature (rand_nonce rng) method
                                      (signed_params lang key now kwargs) secret)))).
Proof. reflexivity. Qed.

(** C1: with a key and a secret configured, the query is the ["&"]-join of
    pair strings one of which is [apiSig=] followed by the nonce and the
    lowercase hexadecimal SHA-512 digest of
    [nonce/method?canonical-parameters#secret], where the canonical
    parameters are those of the caller with [lang], [time] and [apiKey];
    the nonce has six characters, each a lowercase letter or a digit chosen
    by the system random source. *)
Theorem url_api_request_signature :
  forall (key secret lang method : string) (now : Z) (rng : nat -> nat)
         (kwargs : dict value),
    let nonce := rand_nonce rng in
    let params :=
      dict_set (dict_set (dict_set kwargs "lang" (VAtom (AStr lang)))
                         "time" (VAtom (AInt now)))
               "apiKey" (VAtom (AStr key)) in
    let apiSig :=
      nonce ++ sha512_hexdigest
                 (encode_utf8 (nonce ++ "/" ++ method ++ "?" ++ _get_url params
                                     ++ "#" ++ secret)) in
    String.length nonce = 6 /\
    Forall (fun c => In c (list_ascii_of_string (ascii_lowercase ++ digits)))
           (list_ascii_of_string nonce) /\
    exists pairs,
      _url_api_request (mkConfig (Some key) (Some secret) lang) now rng method kwargs
        = join "&" pairs /\
      In ("apiSig=" ++ apiSig) pairs.
Proof.
  intros key secret lang method now rng kwargs nonce params apiSig.
  destruct (rand_nonce_shape rng) as [Hlen Hchars].
  split; [exact Hlen|]. split; [exact Hchars|].
  rewrite _url_api_request_signed. unfold _get_url at 1.
  eexists. split; [reflexivity|].
  change ("apiSig=" ++ apiSig) with (_to_http "apiSig" (VAtom (AStr apiSig))).
  apply In_sorted_str_kwargs; [|reflexivity].
  apply dict_get_In. rewrite dict_get_set. reflexivity.
Qed.

(** The digest is printed on 128 lowercase hexadecimal digits. *)
Lemma string_length_append : forall a b,
  String.length (a ++ b) = String.length a + String.length b.
Proof.
  induction a as [|c a IH]; intro b; simpl; [reflexivity | now rewrite IH].
Qed.

Lemma list_ascii_of_string_append : forall a b,
  list_ascii_of_string (a ++ b)
  = (list_ascii_of_string a ++ list_ascii_of_string b)%list.
Proof.
  induction a as [|c a IH]; intro b; simpl; [reflexivity | now rewrite IH].
Qed.

Lemma hex_digit_In : forall n,
  In (SHA512.hex_digit n) (list_ascii_of_string "0123456789abcdef").
Proof.
  intro n. unfold SHA512.hex_digit.
  destruct (String.get (Z.to_nat n) "0123456789abcdef") as [c|] eqn:E.
  - destruct (Nat.lt_ge_cases (Z.to_nat n) (String.length "0123456789abcdef"))
      as [Hlt|Hge].
    + destruct (get_In _ _ Hlt) as (c' & Hc' & Hin). congruence.
    + revert E. generalize (Z.to_nat n) Hge. intros k Hk.
      do 16 (destruct k as [|k]; [simpl in Hk; lia|]). discriminate.
  - now left.
Qed.

Lemma hex_shape : forall bs,
  String.length (SHA512.hex bs) = 2 * List.length bs /\
  Forall (fun c => In c (list_ascii_of_string "0123456789abcdef"))
         (list_ascii_of_string (SHA512.hex bs)).
Proof.
  unfold SHA512.hex.
  induction bs as [|b bs [IHl IHc]]; [split; [reflexivity | constructor]|].
  assert (E : String.concat "" (map SHA512.hex_byte (b :: bs))
              = SHA512.hex_byte b ++ String.concat "" (map SHA512.hex_byte bs)).
  { cbn [map String.concat]. destruct (map SHA512.hex_byte bs); reflexivity. }
  rewrite E. split.
  - rewrite string_length_append, IHl. simpl. lia.
  - rewrite list_ascii_of_string_append. apply Forall_app. split; [|exact IHc].
    unfold SHA512.hex_byte. cbn [list_ascii_of_string].
    repeat (apply Forall_cons; [apply hex_digit_In|]). apply Forall_nil.
Qed.

Lemma be_bytes_length : forall n x, List.length (SHA512.be_bytes n x) = n.
Proof.
  induction n as [|n IH]; intro x; simpl; [reflexivity | now rewrite IH].
Qed.

Lemma compress_length : forall h block,
  List.length h = 8 -> List.length (SHA512.compress h block) = 8.
Proof.
  intros h block H. unfold SHA512.compress.
  rewrite length_map, length_combine, H. reflexivity.
Qed.

Lemma digest_words_length : forall msg,
  List.length (SHA512.digest_words msg) = 8.
Proof.
  intro msg. unfold SHA512.digest_words.
  generalize (SHA512.blocks (List.length (SHA512.pad msg)) (SHA512.pad msg)).
  assert (H : List.length SHA512.H0 = 8) by reflexivity.
  revert H. generalize SHA512.H0.
  intros h H bl. revert h H.
  induction bl as [|b bl IH]; intros h H; simpl; [exact H|].
  apply IH. now apply compress_length.
Qed.

Lemma flat_map_length_const : forall (A B : Type) (f : A -> list B) n l,
  (forall x, List.length (f x) = n) ->
  List.length (flat_map f l) = List.length l * n.
Proof.
  intros A B f n l H. induction l as [|a l IH]; simpl; [reflexivity|].
  now rewrite length_app, H, IH.
Qed.

Lemma sha512_hexdigest_shape : forall data,
  String.length (sha512_hexdigest data) = 128 /\
  Forall (fun c => In c (list_ascii_of_string "0123456789abcdef"))
         (list_ascii_of_string (sha512_hexdigest data)).
Proof.
  intro data. unfold sha512_hexdigest, SHA512.hexdigest.
  destruct (hex_shape (SHA512.digest data)) as [Hl Hc].
  split; [|exact Hc].
  rewrite Hl. unfold SHA512.digest.
  rewrite (flat_map_length_const _ _ _ 8) by (intro; apply be_bytes_length).
  now rewrite digest_words_length.
Qed.

(** The signature of the worked example of the specification. *)
Example signature_example :
  signature "000000" "user.info"
    [("handles", VList [AStr "tourist"]); ("lang", VAtom (AStr "en"));
     ("time", VAtom (AInt 1600000000)); ("apiKey", VAtom (AStr "ABC"))] "xyz" =
  "000000" ++
  "7e81d5eef1ce278ce5022f69fcf50ffc415635d16af61acf2b6685a625e1e5561ba4f66ad87b3546f75b45011e0fe9c264e8481ed25b4b11f1570ec98d185c49".
Proof. vm_compute. reflexivity. Qed.

Example url_api_request_example :
  _url_api_request (mkConfig (Some "ABC") (Some "xyz") "en") 1600000000 (fun _ => 26)
    "user.info" [("handles", VList [AStr "tourist"])] =
  "apiKey=ABC&apiSig=0000007e81d5eef1ce278ce5022f69fcf50ffc415635d16af61acf2b6685a625e1e5561ba4f66ad87b3546f75b45011e0fe9c264e8481ed25b4b11f1570ec98d185c49&handles=tourist&lang=en&time=1600000000".
Proof. vm_compute. reflexivity. Qed.

Lemma In_dict_set : forall (V : Type) (d : dict V) k v k' v',
  In (k', v') (dict_set d k v) -> (k' = k /\ v' = v) \/ In (k', v') d.
Proof.
  induction d as [|[k0 v0] d IH]; intros k v k' v'; simpl.
  - intros [[= <- <-]|[]]. now left.
  - destruct (String.eqb_spec k0 k) as [->|Hne]; simpl.
    + intros [[= <- <-]|H]; [now left | right; now right].
    + intros [H|H]; [right; now left|].
      destruct (IH _ _ _ _ H) as [?|?]; [now left | right; now right].
Qed.

Lemma In_sorted_str_kwargs_inv : forall kwargs p,
  In p (_sorted_str_kwargs kwargs) ->
  exists k v, In (k, v) kwargs /\ is_None v = false /\ p = _to_http k v.
Proof.
  intros kwargs p Hin. rewrite _sorted_str_kwargs_spec in Hin.
  apply (Permutation_in _ (sorted_Permutation _)) in Hin.
  unfold spec_pairs in Hin. apply in_map_iff in Hin.
  destruct Hin as ([k v] & <- & Hf). apply filter_In in Hf.
  destruct Hf as [Hin Hv]. simpl in *.
  exists k, v. rewrite _to_http_spec. repeat split; trivial.
  now destruct (is_None v).
Qed.

(** C3, as the specification words it, fails on the worked example: the
    query is not the canonical encoding of the other parameters followed by
    the [apiSig] pair. *)
Lemma url_api_request_signature_not_appended :
  _url_api_request (mkConfig (Some "ABC") (Some "xyz") "en") 1600000000 (fun _ => 26)
    "user.info" [("handles", VList [AStr "tourist"])] <>
  _get_url (signed_params "en" "ABC" 1600000000 [("handles", VList [AStr "tourist"])])
  ++ "&" ++ "apiSig=" ++
  signature (rand_nonce (fun _ => 26)) "user.info"
    (signed_params "en" "ABC" 1600000000 [("handles", VList [AStr "tourist"])]) "xyz".
Proof.
  apply String.eqb_neq. vm_compute. reflexivity.
Qed.

(** C3, amended: with a key and a secret configured, and no [apiSig] entry
    among the caller's parameters, the signature pair is sorted together
    with the other pairs: the query is the ["&"]-join of the ascending
    arrangement of the canonical pairs of the other parameters and the
    [apiSig] pair, in which the [apiSig] pair comes before the [lang]
    pair. *)
Theorem url_api_request_signature_sorted :
  forall (key secret lang method : string) (now : Z) (rng : nat -> nat)
         (kwargs : dict value),
    dict_get kwargs "apiSig" = None ->
    let params := signed_params lang key now kwargs in
    let sig_pair := "apiSig=" ++ signature (rand_nonce rng) method params secret in
    exists pairs,
      _url_api_request (mkConfig (Some key) (Some secret) lang) now rng method kwargs
        = join "&" pairs /\
      StronglySorted str_le pairs /\
      Permutation pairs (sig_pair :: _sorted_str_kwargs params) /\
      exists before after,
        pairs = (before ++ sig_pair :: after)%list /\ In ("lang=" ++ lang) after.
Proof.
  intros key secret lang method now rng kwargs Hno params sig_pair.
  set (sig := signature (rand_nonce rng) method params secret).
  assert (Hnone : dict_get params "apiSig" = None).
  { unfold params, signed_params. rewrite !dict_get_set. exact Hno. }
  assert (Hlang : In ("lang", VAtom (AStr lang)) params).
  { apply dict_get_In. unfold params, signed_params.
    rewrite !dict_get_set. reflexivity. }
  exists (_sorted_str_kwargs (dict_set params "apiSig" (VAtom (AStr sig)))).
  assert (HS : StronglySorted str_le
                 (_sorted_str_kwargs (dict_set params "apiSig" (VAtom (AStr sig))))).
  { rewrite _sorted_str_kwargs_spec. apply sorted_StronglySorted. }
  split; [|split; [|split]].
  - apply _url_api_request_signed.
  - exact HS.
  - rewrite (dict_set_new _ _ _ _ Hnone), !_sorted_str_kwargs_spec, spec_pairs_app.
    rewrite (sorted_Permutation (spec_pairs params ++ _)).
    rewrite (sorted_Permutation (spec_pairs params)).
    symmetry. apply Permutation_cons_append.
  - apply StronglySorted_after.
    + exact HS.
    + change sig_pair with (_to_http "apiSig" (VAtom (AStr sig))).
      apply In_sorted_str_kwargs; [|reflexivity].
      apply dict_get_In. rewrite dict_get_set. reflexivity.
    + change ("lang=" ++ lang) with (_to_http "lang" (VAtom (AStr lang))).
      apply In_sorted_str_kwargs; [|reflexivity].
      rewrite (dict_set_new _ _ _ _ Hnone). apply in_or_app. now left.
    + unfold str_le, sig_pair. simpl. discriminate.
Qed.

Lemma url_api_request_signature_sorted_witness :
  dict_get [("handles", VList [AStr "tourist"])] "apiSig" = None /\
  exists pairs,
    _url_api_request (mkConfig (Some "ABC") (Some "xyz") "en") 1600000000 (fun _ => 26)
      "user.info" [("handles", VList [AStr "tourist"])] = join "&" pairs /\
    StronglySorted str_le pairs /\
    Permutation pairs
      (("apiSig=" ++ signature (rand_nonce (fun _ => 26)) "user.info"
          (signed_params "en" "ABC" 1600000000 [("handles", VList [AStr "tourist"])]) "xyz")
       :: _sorted_str_kwargs
            (signed_params "en" "ABC" 1600000000 [("handles", VList [AStr "tourist"])])) /\
    exists before after,
      pairs =
      (before ++
       ("apiSig=" ++ signature (rand_nonce (fun _ => 26)) "user.info"
          (signed_params "en" "ABC" 1600000000 [("handles", VList [AStr "tourist"])]) "xyz")%string
       :: after)%list /\
      In ("lang=" ++ "en") after.
Proof.
  split; [reflexivity|].
  apply (url_api_request_signature_sorted "ABC" "xyz" "en" "user.info" 1600000000
           (fun _ => 26) [("handles", VList [AStr "tourist"])]).
  reflexivity.
Defined.

(** C10: when the key or the secret is [None], the query is the canonical
    encoding of the caller's parameters and [lang] alone, whatever the
    clock and the random source: it is the query of the unauthenticated
    case, and each of its pairs is that of a caller's parameter or of
    [lang]. *)
Theorem url_api_request_unsigned :
  forall (key secret : option string) (lang method : string) (now : Z)
         (rng : nat -> nat) (kwargs : dict value),
    key = None \/ secret = None ->
    _url_api_request (mkConfig key secret lang) now rng method kwargs
      = _get_url (dict_set kwargs "lang" (VAtom (AStr lang))) /\
    (forall now' rng',
        _url_api_request (mkConfig key secret lang) now rng method kwargs
        = _url_api_request (mkConfig None None lang) now' rng' method kwargs) /\
    exists pairs,
      _url_api_request (mkConfig key secret lang) now rng method kwargs
        = join "&" pairs /\
      forall p, In p pairs ->
        exists k v, p = _to_http k v /\
                    ((k = "lang" /\ v = VAtom (AStr lang)) \/ In (k, v) kwargs).
Proof.
  intros key secret lang method now rng kwargs Hnone.
  assert (E : _url_api_request (mkConfig key secret lang) now rng method kwargs
              = _get_url (dict_set kwargs "lang" (VAtom (AStr lang)))).
  { destruct Hnone as [-> | ->]; [reflexivity|]. destruct key; reflexivity. }
  split; [exact E|]. split; [intros; exact E|].
  rewrite E. unfold _get_url. eexists. split; [reflexivity|].
  intros p Hp. apply In_sorted_str_kwargs_inv in Hp.
  destruct Hp as (k & v & Hin & _ & ->).
  exists k, v. split; [reflexivity|]. now apply In_dict_set.
Qed.

Lemma url_api_request_unsigned_witness :
  (Some "ABC" = None \/ @None string = None) /\
  _url_api_request (mkConfig (Some "ABC") None "en") 1600000000 (fun _ => 26)
    "user.info" [("handles", VList [AStr "tourist"])]
  = "handles=tourist&lang=en".
Proof.
  split; [right; reflexivity|].
  rewrite (proj1 (url_api_request_unsigned (Some "ABC") None "en" "user.info"
                    1600000000 (fun _ => 26) [("handles", VList [AStr "tourist"])]
                    (or_intror eq_refl))).
  reflexivity.
Defined.

(* ================================================================= *)
(** ** The response records *)

Lemma dict_get_wrap_items : forall m k,
  dict_get (wrap_items m) k = option_map PJson (dict_get m k).
Proof.
  induction m as [|[k0 v0] m IH]; intro k; simpl; [reflexivity|].
  destruct (String.eqb k0 k); [reflexivity | apply IH].
Qed.

Lemma keys_wrap_items : forall m, keys (wrap_items m) = keys m.
Proof.
  intro m. unfold keys, wrap_items. rewrite map_map. reflexivity.
Qed.

Lemma dict_get_app : forall (V : Type) (d1 d2 : dict V) k,
  dict_get (d1 ++ d2)%list k =
  match dict_get d1 k with
  | Some v => Some v
  | None => dict_get d2 k
  end.
Proof.
  induction d1 as [|[k0 v0] d1 IH]; intros d2 k; simpl; [reflexivity|].
  destruct (String.eqb k0 k); [reflexivity | apply IH].
Qed.

Lemma dict_get_not_in : forall (V : Type) (d : dict V) k,
  existsb (String.eqb k) (keys d) = false -> dict_get d k = None.
Proof.
  induction d as [|[k0 v0] d IH]; intro k; simpl; [reflexivity|].
  rewrite String.eqb_sym. destruct (String.eqb k0 k); simpl; [discriminate | apply IH].
Qed.

Lemma setattr_plain : forall self name v,
  plain_name name = true -> setattr self name v = inr (dict_set self name v).
Proof.
  intros self name v. unfold plain_name, setattr.
  destruct (String.eqb name "__class__"); [discriminate|].
  destruct (String.eqb name "__weakref__"); [discriminate|].
  destruct (String.eqb name "__dict__"); [discriminate|].
  reflexivity.
Qed.

(** The loop of the base constructor stores every entry when the names are
    ordinary, occur once and are new to the instance. *)
Lemma setattr_all_fresh : forall its self,
  forallb plain_name (keys its) = true ->
  unique (keys its) = true ->
  (forall k, In k (keys its) -> dict_get self k = None) ->
  setattr_all self its = inr (self ++ its)%list.
Proof.
  induction its as [|[k v] its IH]; intros self Hp Hu Hfresh; simpl in *.
  - now rewrite app_nil_r.
  - apply andb_true_iff in Hp. destruct Hp as [Hk Hp].
    apply andb_true_iff in Hu. destruct Hu as [Hnk Hu].
    apply negb_true_iff in Hnk.
    rewrite (setattr_plain _ _ _ Hk). cbn [bind].
    rewrite dict_set_new by (apply Hfresh; now left).
    rewrite IH; trivial.
    + now rewrite <- app_assoc.
    + intros k' Hin. rewrite dict_get_app, Hfresh by now right.
      simpl. destruct (String.eqb_spec k k') as [->|]; [|reflexivity].
      exfalso. assert (existsb (String.eqb k') (keys its) = true) as E.
      { apply existsb_exists. exists k'. split; [exact Hin | apply String.eqb_refl]. }
      congruence.
Qed.

Lemma CodeforcesResponse_init_mapping : forall j,
  mapping j = true ->
  CodeforcesResponse_init (PJson j) = inr (wrap_items (fields j)).
Proof.
  intros [| | | | |m]; simpl; try discriminate.
  intro H. apply andb_true_iff in H. destruct H as [Hp Hu].
  unfold CodeforcesResponse_init. cbn [items ret bind].
  rewrite setattr_all_fresh; rewrite ?keys_wrap_items; trivial.
Qed.

Lemma new_plain_mapping : forall c j,
  mapping j = true -> new_plain c (PJson j) = inr (plain_record c j).
Proof.
  intros c j H. unfold new_plain.
  now rewrite CodeforcesResponse_init_mapping.
Qed.

Lemma mapM_map : forall (A B : Type) (f : A -> result B) (g : A -> B) l,
  Forall (fun x => f x = inr (g x)) l -> mapM f l = inr (map g l).
Proof.
  induction 1 as [|x l Hx _ IH]; simpl; [reflexivity|].
  now rewrite Hx, IH.
Qed.

Lemma list_map_mappings : forall c j,
  list_of mapping j = true ->
  list_map (new_plain c) (PJson j) = inr (PList (map (plain_record c) (elements j))).
Proof.
  intros c [| | | |l|]; simpl; try discriminate.
  intro H. unfold list_map. cbn [iter ret bind].
  rewrite (mapM_map _ _ _ (fun v => match v with
                                    | PJson x => plain_record c x
                                    | _ => v
                                    end)).
  - cbn [bind ret]. now rewrite map_map.
  - apply Forall_forall. intros v Hv. apply in_map_iff in Hv.
    destruct Hv as (x & <- & Hx). apply new_plain_mapping.
    rewrite forallb_forall in H. now apply H.
Qed.

Lemma field_inv : forall m k p,
  field m k p = true -> exists j, dict_get m k = Some j /\ p j = true.
Proof.
  intros m k p. unfold field. destruct (dict_get m k) as [j|]; [|discriminate].
  intro H. now exists j.
Qed.

Lemma getattr_wrap_items : forall m k j,
  dict_get m k = Some j -> getattr (wrap_items m) k = inr (PJson j).
Proof.
  intros m k j H. unfold getattr. now rewrite dict_get_wrap_items, H.
Qed.

Lemma new_Party_shaped : forall j,
  party_shaped j = true -> new_Party (PJson j) = inr (party_record j).
Proof.
  intros j H. unfold party_shaped in H. apply andb_true_iff in H.
  destruct H as [Hm Hf]. apply field_inv in Hf. destruct Hf as (ms & Hget & Hms).
  unfold new_Party, Party_init, party_record.
  rewrite (CodeforcesResponse_init_mapping _ Hm). cbn [bind].
  rewrite (getattr_wrap_items _ _ _ Hget). cbn [bind].
  rewrite (list_map_mappings _ _ Hms). cbn [bind].
  rewrite setattr_plain by reflexivity. cbn [bind ret].
  now rewrite Hget.
Qed.

Lemma hasattr_dict_set : forall (self : dict pyval) k v k',
  hasattr (dict_set self k v) k' = String.eqb k k' || hasattr self k'.
Proof.
  intros self k v k'. unfold hasattr, dict_has. rewrite dict_get_set.
  now destruct (String.eqb k k').
Qed.

Lemma hasattr_wrap_items : forall m k, hasattr (wrap_items m) k = dict_has m k.
Proof.
  intros m k. unfold hasattr, dict_has. rewrite dict_get_wrap_items.
  now destruct (dict_get m k).
Qed.

Lemma getattr_dict_set_other : forall (self : dict pyval) k v k',
  String.eqb k k' = false -> getattr (dict_set self k v) k' = getattr self k'.
Proof.
  intros self k v k' H. unfold getattr. now rewrite dict_get_set, H.
Qed.

Lemma getattr_absent : forall m k,
  dict_get m k = None -> exists e, getattr (wrap_items m) k = inl e.
Proof.
  intros m k H. unfold getattr. rewrite dict_get_wrap_items, H. simpl.
  eexists. reflexivity.
Qed.

Lemma same_fields_init : forall ws m, same_fields ws m (wrap_items m).
Proof.
  intros ws m. split.
  - apply hasattr_wrap_items.
  - intros k v _ H. now rewrite dict_get_wrap_items, H.
Qed.

Lemma same_fields_set : forall ws m self k v,
  same_fields ws m self -> In k ws -> dict_has m k = true ->
  same_fields ws m (dict_set self k v).
Proof.
  intros ws m self k v [Hh Hr] Hin Hk. split.
  - intro k'. rewrite hasattr_dict_set, Hh.
    destruct (String.eqb_spec k k') as [<-|]; [now rewrite Hk | reflexivity].
  - intros k' v' Hnot Hget. rewrite dict_get_set.
    destruct (String.eqb_spec k k') as [<-|]; [contradiction | now apply Hr].
Qed.

Lemma dict_has_get : forall (V : Type) (d : dict V) k v,
  dict_get d k = Some v -> dict_has d k = true.
Proof. intros V d k v H. unfold dict_has. now rewrite H. Qed.

(** One step of a constructor on a well-shaped payload. *)
Ltac construct_step :=
  first
    [ rewrite CodeforcesResponse_init_mapping by assumption
    | rewrite new_plain_mapping by assumption
    | rewrite new_Party_shaped by assumption
    | rewrite list_map_mappings by assumption
    | rewrite setattr_plain by reflexivity
    | rewrite getattr_dict_set_other by reflexivity
    | erewrite getattr_wrap_items by eassumption ];
  cbn [bind ret fields].

Ltac same_fields_solve :=
  repeat (apply same_fields_set;
          [ | simpl; tauto | eapply dict_has_get; eassumption ]);
  apply same_fields_init.

Lemma new_well_shaped : forall c m,
  well_shaped c (JObj m) = true ->
  exists self, new c (PJson (JObj m)) = inr (PObj c self) /\
               same_fields (wrapped c) m self.
Proof.
  intros c m H. unfold well_shaped in H. apply andb_true_iff in H.
  destruct H as [Hm H]. cbn [fields] in H.
  destruct c;
    try (cbn [new]; rewrite new_plain_mapping by assumption;
         eexists; split; [reflexivity | apply same_fields_init]).
  - (* RecentAction *)
    apply andb_true_iff in H. destruct H as [Hb Hc].
    unfold optional_field in Hb, Hc.
    cbn [new]. unfold RecentAction_init. construct_step.
    rewrite hasattr_wrap_items. unfold dict_has.
    destruct (dict_get m "blogEntry") as [b|] eqn:Eb;
      destruct (dict_get m "comment") as [c|] eqn:Ec.
    + repeat construct_step.
      rewrite hasattr_dict_set, hasattr_wrap_items. unfold dict_has. rewrite Ec.
      cbn [String.eqb Ascii.eqb Bool.eqb orb]. repeat construct_step.
      eexists. split; [reflexivity | same_fields_solve].
    + repeat construct_step.
      rewrite hasattr_dict_set, hasattr_wrap_items. unfold dict_has. rewrite Ec.
      cbn [String.eqb Ascii.eqb Bool.eqb orb].
      eexists. split; [reflexivity | same_fields_solve].
    + cbn [bind ret]. rewrite hasattr_wrap_items. unfold dict_has. rewrite Ec.
      repeat construct_step.
      eexists. split; [reflexivity | same_fields_solve].
    + cbn [bind ret]. rewrite hasattr_wrap_items. unfold dict_has. rewrite Ec.
      eexists. split; [reflexivity | same_fields_solve].
  - (* Party *)
    apply field_inv in H. destruct H as (ms & Hget & Hms).
    cbn [new]. unfold new_Party, Party_init. repeat construct_step.
    eexists. split; [reflexivity | same_fields_solve].
  - (* Submission *)
    apply andb_true_iff in H. destruct H as [Hp Ha].
    apply field_inv in Hp. destruct Hp as (p & Hgp & Hp).
    apply field_inv in Ha. destruct Ha as (a & Hga & Ha).
    cbn [new]. unfold Submission_init. repeat construct_step.
    eexists. split; [reflexivity | same_fields_solve].
  - (* Hack *)
    apply andb_true_iff in H. destruct H as [Hh Hd].
    apply field_inv in Hh. destruct Hh as (h & Hgh & Hh).
    apply field_inv in Hd. destruct Hd as (d & Hgd & Hd).
    cbn [new]. unfold Hack_init. repeat construct_step.
    eexists. split; [reflexivity | same_fields_solve].
  - (* RanklistRow *)
    apply andb_true_iff in H. destruct H as [Hp Hr].
    apply field_inv in Hp. destruct Hp as (p & Hgp & Hp).
    apply field_inv in Hr. destruct Hr as (r & Hgr & Hr).
    cbn [new]. unfold RanklistRow_init. repeat construct_step.
    eexists. split; [reflexivity | same_fields_solve].
Qed.

Ltac fails := cbn [bind raise]; eexists; reflexivity.

Lemma new_required_absent : forall c m f,
  mapping (JObj m) = true -> In f (required c) -> dict_get m f = None ->
  exists e, new c (PJson (JObj m)) = inl e.
Proof.
  intros c m f Hm Hin Hf.
  destruct c; cbn [required] in Hin; try contradiction; cbn [new].
  - (* Party *)
    destruct Hin as [<-|[]].
    unfold new_Party, Party_init. construct_step.
    destruct (getattr_absent _ _ Hf) as [e ->]. fails.
  - (* Submission *)
    unfold Submission_init. construct_step.
    destruct Hin as [<-|[<-|[]]].
    + destruct (getattr_absent _ _ Hf) as [e ->]. fails.
    + destruct (getattr (wrap_items m) "problem") as [e|raw]; [fails|].
      cbn [bind]. destruct (new_plain Problem raw) as [e|p]; [fails|].
      cbn [bind]. repeat construct_step.
      destruct (getattr_absent _ _ Hf) as [e ->]. fails.
  - (* Hack *)
    unfold Hack_init. construct_step.
    destruct Hin as [<-|[<-|[]]].
    + destruct (getattr_absent _ _ Hf) as [e ->]. fails.
    + destruct (getattr (wrap_items m) "hacker") as [e|raw]; [fails|].
      cbn [bind]. destruct (new_Party raw) as [e|p]; [fails|].
      cbn [bind]. repeat construct_step.
      destruct (getattr_absent _ _ Hf) as [e ->]. fails.
  - (* RanklistRow *)
    unfold RanklistRow_init. construct_step.
    destruct Hin as [<-|[<-|[]]].
    + destruct (getattr_absent _ _ Hf) as [e ->]. fails.
    + destruct (getattr (wrap_items m) "party") as [e|raw]; [fails|].
      cbn [bind]. destruct (new_Party raw) as [e|p]; [fails|].
      cbn [bind]. repeat construct_step.
      destruct (getattr_absent _ _ Hf) as [e ->]. fails.
Qed.

(** C5, as the specification words it, fails: a [Party] payload whose
    [members] field is present but holds a number is refused, although no
    structural field is absent. *)
Lemma party_members_present_but_refused :
  mapping (JObj [("members", JNum 5)]) = true /\
  dict_has [("members", JNum 5)] "members" = true /\
  new Party (PJson (JObj [("members", JNum 5)]))
    = inl (TypeError "'int' object is not iterable").
Proof. repeat split. Qed.

(** The same holds for a structural field that is a list with an element
    that is not a mapping. *)
Example party_member_not_a_mapping :
  new Party (PJson (JObj [("members", JArr [JStr "tourist"])]))
    = inl (AttributeError "'str' object has no attribute 'items'").
Proof. reflexivity. Qed.

(** The base constructor itself refuses a mapping with the key
    [__class__]. *)
Example user_with_class_key :
  new User (PJson (JObj [("handle", JStr "tourist"); ("__class__", JStr "User")]))
    = inl (TypeError "__class__ must be set to a class, not 'str' object").
Proof. reflexivity. Qed.

(** With the key [__dict__] and a mapping as its value, the fields stored
    before it are lost. *)
Example user_with_dict_key :
  new User (PJson (JObj [("handle", JStr "tourist");
                         ("__dict__", JObj [("rating", JNum 3800)])]))
    = inr (PObj User [("rating", PJson (JNum 3800))]).
Proof. reflexivity. Qed.

(** C5, amended: on a mapping whose keys are ordinary attribute names,
    construction succeeds whenever the structural fields of the class hold
    mappings or lists of mappings as the constructor wraps them (for a
    class without structural fields: always); the record then has an
    attribute for each field of the mapping and for nothing else, and
    every field that the class does not wrap is kept as it is.
    Construction fails when a structural field that the constructor reads
    unconditionally is absent. *)
Theorem record_construction :
  forall (c : cls) (m : list (string * json)),
    mapping (JObj m) = true ->
    (well_shaped c (JObj m) = true ->
     exists self,
       new c (PJson (JObj m)) = inr (PObj c self) /\
       (forall k, hasattr self k = dict_has m k) /\
       (forall k v, ~ In k (wrapped c) -> dict_get m k = Some v ->
                    getattr self k = inr (PJson v))) /\
    (forall f, In f (required c) -> dict_get m f = None ->
               exists e, new c (PJson (JObj m)) = inl e).
Proof.
  intros c m Hm. split.
  - intro H. destruct (new_well_shaped c m H) as (self & E & Hh & Hr).
    exists self. split; [exact E|]. split; [exact Hh|].
    intros k v Hk Hget. unfold getattr. now rewrite (Hr k v Hk Hget).
  - intros f Hin Hf. now apply (new_required_absent c m f).
Qed.

Lemma record_construction_witness :
  mapping (JObj [("members", JArr [JObj [("handle", JStr "tourist")]]);
                 ("teamName", JStr "solo")]) = true /\
  exists self,
    new Party (PJson (JObj [("members", JArr [JObj [("handle", JStr "tourist")]]);
                            ("teamName", JStr "solo")])) = inr (PObj Party self) /\
    getattr self "teamName" = inr (PJson (JStr "solo")) /\
    hasattr self "teamId" = false.
Proof.
  split; [reflexivity|].
  destruct (proj1 (record_construction Party
                     [("members", JArr [JObj [("handle", JStr "tourist")]]);
                      ("teamName", JStr "solo")] eq_refl) eq_refl)
    as (self & E & Hh & Hr).
  exists self. split; [exact E|]. split.
  - apply (Hr "teamName" (JStr "solo")); [|reflexivity].
    simpl. intros [H|[]]. discriminate H.
  - rewrite Hh. reflexivity.
Defined.

Lemma RecentAction_init_comment_only : forall m sub,
  mapping (JObj m) = true -> mapping (JObj sub) = true ->
  dict_get m "comment" = Some (JObj sub) -> dict_get m "blogEntry" = None ->
  RecentAction_init (PJson (JObj m))
    = inr (dict_set (wrap_items m) "comment" (PObj Comment (wrap_items sub))).
Proof.
  intros m sub Hm Hsub Hc Hb. unfold RecentAction_init. construct_step.
  rewrite hasattr_wrap_items. unfold dict_has at 1. rewrite Hb. cbn [bind ret].
  rewrite hasattr_wrap_items. unfold dict_has. rewrite Hc.
  repeat construct_step. reflexivity.
Qed.

Lemma RecentAction_init_blogEntry_only : forall m sub,
  mapping (JObj m) = true -> mapping (JObj sub) = true ->
  dict_get m "blogEntry" = Some (JObj sub) -> dict_get m "comment" = None ->
  RecentAction_init (PJson (JObj m))
    = inr (dict_set (wrap_items m) "blogEntry" (PObj BlogEntry (wrap_items sub))).
Proof.
  intros m sub Hm Hsub Hb Hc. unfold RecentAction_init. construct_step.
  rewrite hasattr_wrap_items. unfold dict_has at 1. rewrite Hb.
  repeat construct_step.
  rewrite hasattr_dict_set, hasattr_wrap_items. unfold dict_has. rewrite Hc.
  reflexivity.
Qed.

(** C8: a [RecentAction] payload with a [comment] field and no
    [blogEntry] field gives a record whose [comment] attribute is a
    [Comment] record and which has no [blogEntry] attribute; a payload
    with a [blogEntry] field and no [comment] field gives a record whose
    [blogEntry] attribute is a [BlogEntry] record and which has no
    [comment] attribute; every other field is left as it is.  The payload
    and the field are mappings with ordinary attribute names, as the
    service sends them. *)
Theorem recent_action_wraps_present :
  forall (m sub : list (string * json)),
    mapping (JObj m) = true ->
    mapping (JObj sub) = true ->
    (dict_get m "comment" = Some (JObj sub) -> dict_get m "blogEntry" = None ->
     exists self,
       new RecentAction (PJson (JObj m)) = inr (PObj RecentAction self) /\
       getattr self "comment" = inr (PObj Comment (wrap_items sub)) /\
       hasattr self "blogEntry" = false /\
       (forall k v, k <> "comment" -> dict_get m k = Some v ->
                    getattr self k = inr (PJson v))) /\
    (dict_get m "blogEntry" = Some (JObj sub) -> dict_get m "comment" = None ->
     exists self,
       new RecentAction (PJson (JObj m)) = inr (PObj RecentAction self) /\
       getattr self "blogEntry" = inr (PObj BlogEntry (wrap_items sub)) /\
       hasattr self "comment" = false /\
       (forall k v, k <> "blogEntry" -> dict_get m k = Some v ->
                    getattr self k = inr (PJson v))).
Proof.
  intros m sub Hm Hsub. split.
  - intros Hc Hb. eexists. split; [|split; [|split]].
    + cbn [new]. rewrite (RecentAction_init_comment_only m sub); trivial.
      reflexivity.
    + unfold getattr. rewrite dict_get_set. reflexivity.
    + rewrite hasattr_dict_set, hasattr_wrap_items. unfold dict_has.
      rewrite Hb. reflexivity.
    + intros k v Hk Hget. unfold getattr. rewrite dict_get_set.
      destruct (String.eqb_spec "comment" k) as [<-|_]; [contradiction|].
      rewrite dict_get_wrap_items, Hget. reflexivity.
  - intros Hb Hc. eexists. split; [|split; [|split]].
    + cbn [new]. rewrite (RecentAction_init_blogEntry_only m sub); trivial.
      reflexivity.
    + unfold getattr. rewrite dict_get_set. reflexivity.
    + rewrite hasattr_dict_set, hasattr_wrap_items. unfold dict_has.
      rewrite Hc. reflexivity.
    + intros k v Hk Hget. unfold getattr. rewrite dict_get_set.
      destruct (String.eqb_spec "blogEntry" k) as [<-|_]; [contradiction|].
      rewrite dict_get_wrap_items, Hget. reflexivity.
Qed.

Lemma recent_action_wraps_present_witness :
  mapping (JObj [("timeSeconds", JNum 1600000000);
                 ("comment", JObj [("id", JNum 7); ("text", JStr "hi")])]) = true /\
  mapping (JObj [("id", JNum 7); ("text", JStr "hi")]) = true /\
  exists self,
    new RecentAction
      (PJson (JObj [("timeSeconds", JNum 1600000000);
                    ("comment", JObj [("id", JNum 7); ("text", JStr "hi")])]))
      = inr (PObj RecentAction self) /\
    getattr self "comment"
      = inr (PObj Comment [("id", PJson (JNum 7)); ("text", PJson (JStr "hi"))]) /\
    hasattr self "blogEntry" = false.
Proof.
  split; [reflexivity|]. split; [reflexivity|].
  destruct (proj1 (recent_action_wraps_present
                     [("timeSeconds", JNum 1600000000);
                      ("comment", JObj [("id", JNum 7); ("text", JStr "hi")])]
                     [("id", JNum 7); ("text", JStr "hi")] eq_refl eq_refl)
                  eq_refl eq_refl)
    as (self & E & Hc & Hb & _).
  exists self. split; [exact E|]. split; [exact Hc | exact Hb].
Defined.

(* ================================================================= *)
(** ** Transport and the method surface *)

Ltac state_simpl := cbn [negb last_api conf sent status_code ret raise fst snd].

(** On a successful answer, [request_api] returns the parsed body, keeps it
    in [last_api] and has asked for one URL. *)
Lemma request_api_ok : forall w self method kwargs r result,
  http_request w (api_url w self method kwargs) = inr r ->
  ok_response r result ->
  exists m,
    dict_get m "result" = Some result /\
    request_api w method kwargs self =
    (inr (JObj m),
     mkApi (conf self) (LastJson (JObj m))
           (sent self ++ [api_url w self method kwargs])).
Proof.
  intros w self method kwargs r result Hreq (Hok & m & Hbody & Hstatus & Hres).
  exists m. split; [exact Hres|].
  unfold request_api. revert Hreq.
  generalize (api_url w self method kwargs). intros url Hreq.
  unfold mbind, http_get, set_last_api, _check_request, lift,
    response_json, last_api_item, mret.
  rewrite Hreq, Hok, Hbody.
  cbn [negb last_api ret getitem]. rewrite Hstatus. reflexivity.
Qed.

(** Whatever the answer, [request_api] asks for exactly one URL. *)
Lemma request_api_sent : forall w self method kwargs,
  sent (snd (request_api w method kwargs self))
  = (sent self ++ [api_url w self method kwargs])%list.
Proof.
  intros w self method kwargs.
  unfold request_api. generalize (api_url w self method kwargs). intro url.
  unfold mbind, http_get, set_last_api, _check_request, lift,
    response_json, last_api_item, last_status_code, mraise, mret.
  destruct (http_request w url) as [e|r]; [reflexivity|].
  state_simpl.
  destruct (ok r); state_simpl; [|reflexivity].
  destruct (body r) as [j|]; state_simpl; [|reflexivity].
  destruct (getitem (PJson j) "status") as [e|status]; [reflexivity|].
  destruct (ne_str status "OK"); state_simpl; [|reflexivity].
  destruct (getitem (PJson j) "comment"); reflexivity.
Qed.

Lemma last_api_item_state : forall key self, snd (last_api_item key self) = self.
Proof.
  intros key self. unfold last_api_item. destruct (last_api self); reflexivity.
Qed.

Lemma last_api_item_json : forall key c m s v,
  dict_get m key = Some v ->
  last_api_item key (mkApi c (LastJson (JObj m)) s)
  = (inr (PJson v), mkApi c (LastJson (JObj m)) s).
Proof.
  intros key c m s v H. unfold last_api_item. cbn. now rewrite H.
Qed.

(** C6: [user_info] on one handle (a string, or a list of one string)
    returns one [User] record, not a list; on several handles it returns
    the list of the [User] records, as many as the handles.  The service
    answers with one mapping for each handle, and the handles are at most
    10000. *)
Theorem user_info_single_or_list :
  forall (w : world) (self : api) (handles : value) (hs : list atom)
         (r : response) (users : list json),
    wrap_str handles = VList hs ->
    (Z.of_nat (List.length hs) <= 10000)%Z ->
    http_request w (api_url w self "user.info" [("handles", VList hs)]) = inr r ->
    ok_response r (JArr users) ->
    List.length users = List.length hs ->
    forallb mapping users = true ->
    (List.length hs = 1 ->
     exists u, users = [u] /\
               fst (user_info w handles self) = inr (plain_record User u)) /\
    (List.length hs <> 1 ->
     fst (user_info w handles self) = inr (PList (map (plain_record User) users)) /\
     List.length (map (plain_record User) users) = List.length hs).
Proof.
  intros w self handles hs r users Hwrap Hmax Hreq Hresp Hlen Hmaps.
  destruct (request_api_ok w self "user.info" [("handles", VList hs)] r
              (JArr users) Hreq Hresp) as (m & Hres & Hrun).
  assert (Hguard : Z.ltb 10000 (Z.of_nat (List.length hs)) = false)
    by (apply Z.ltb_ge; exact Hmax).
  assert (Hcall : user_info w handles self =
                  (if Nat.eqb (List.length hs) 1 then
                     first <~ lift (getitem0 (PJson (JArr users))) ;;
                     lift (new User first)
                   else lift (list_map (new User) (PJson (JArr users))))
                    (mkApi (conf self) (LastJson (JObj m))
                       (sent self ++ [api_url w self "user.info" [("handles", VList hs)]]))).
  { unfold user_info. rewrite Hwrap. unfold mbind at 1. cbn [lift len_value ret].
    rewrite Hguard. unfold mbind at 1. rewrite Hrun.
    unfold mbind at 1. rewrite (last_api_item_json _ _ _ _ _ Hres).
    unfold mbind at 1. cbn [lift len ret]. rewrite Hlen. reflexivity. }
  rewrite Hcall. split.
  - intro H1. rewrite H1. cbn [Nat.eqb].
    destruct users as [|u [|? ?]]; try (simpl in Hlen; lia).
    exists u. split; [reflexivity|].
    unfold mbind, lift. cbn [getitem0 ret new fst].
    simpl in Hmaps. apply andb_true_iff in Hmaps.
    now apply new_plain_mapping.
  - intro Hn. split; [|now rewrite length_map].
    apply Nat.eqb_neq in Hn. rewrite Hn. unfold lift. cbn [fst new].
    now apply (list_map_mappings User (JArr users)).
Qed.

Lemma user_info_single_or_list_witness :
  fst (user_info (service (JArr [JObj [("handle", JStr "tourist")]]))
                 (VAtom (AStr "tourist")) anonymous)
  = inr (PObj User [("handle", PJson (JStr "tourist"))]).
Proof.
  assert (Hresp : ok_response (answer (JArr [JObj [("handle", JStr "tourist")]]))
                              (JArr [JObj [("handle", JStr "tourist")]])).
  { split; [reflexivity|]. eexists. repeat split; reflexivity. }
  assert (Hmax : (Z.of_nat (List.length [AStr "tourist"]) <= 10000)%Z)
    by (simpl; lia).
  destruct (proj1 (user_info_single_or_list
                     (service (JArr [JObj [("handle", JStr "tourist")]])) anonymous
                     (VAtom (AStr "tourist")) [AStr "tourist"]
                     (answer (JArr [JObj [("handle", JStr "tourist")]]))
                     [JObj [("handle", JStr "tourist")]]
                     eq_refl Hmax eq_refl Hresp eq_refl eq_refl) eq_refl)
    as (u & Hu & E).
  injection Hu as <-. exact E.
Defined.

Example user_info_two_handles :
  user_info (service (JArr [JObj [("handle", JStr "DmitryH")];
                            JObj [("handle", JStr "Fefer_Ivan")]]))
            (VList [AStr "DmitryH"; AStr "Fefer_Ivan"]) anonymous
  = (inr (PList [PObj User [("handle", PJson (JStr "DmitryH"))];
                 PObj User [("handle", PJson (JStr "Fefer_Ivan"))]]),
     mkApi (mkConfig None None "en")
           (LastJson (JObj [("status", JStr "OK");
                            ("result", JArr [JObj [("handle", JStr "DmitryH")];
                                             JObj [("handle", JStr "Fefer_Ivan")]])]))
           ["http://codeforces.com/api/user.info?handles=DmitryH;Fefer_Ivan&lang=en"]).
Proof. vm_compute. reflexivity. Qed.

Lemma well_shaped_mapping : forall c j, well_shaped c j = true -> mapping j = true.
Proof.
  intros c j H. unfold well_shaped in H. now apply andb_true_iff in H.
Qed.

Lemma mapM_new_well_shaped : forall c l,
  forallb (well_shaped c) l = true ->
  exists rs, mapM (new c) (map PJson l) = inr rs /\
             List.length rs = List.length l /\
             Forall (fun r => exists self, r = PObj c self) rs.
Proof.
  induction l as [|j l IH]; simpl; intro H.
  - exists []. repeat split. constructor.
  - apply andb_true_iff in H. destruct H as [Hj Hl].
    destruct (IH Hl) as (rs & E & Hlen & Hall).
    assert (exists m, j = JObj m) as [m ->].
    { apply well_shaped_mapping in Hj. destruct j; try discriminate. now eexists. }
    destruct (new_well_shaped c m Hj) as (self & Enew & _).
    exists (PObj c self :: rs). rewrite Enew. cbn [bind]. rewrite E. cbn [bind ret].
    repeat split.
    + simpl. now rewrite Hlen.
    + constructor; [now exists self | exact Hall].
Qed.

(** What [contest_standings] returns on a successful call: a list of three
    elements, of which the first is one [Contest] record and the other two
    are the lists of the [Problem] and of the [RanklistRow] records. *)
Lemma contest_standings_shape :
  forall (w : world) (self : api)
         (contestId from_row count handles room showUnofficial : value)
         (r : response) (res : list (string * json)) (contest : json)
         (problems rows : list json),
    too_many_handles (wrap_str handles) = inr None ->
    http_request w
      (api_url w self "contest.standings"
         [("contestId", contestId); ("from", from_row); ("count", count);
          ("handles", wrap_str handles); ("room", room);
          ("showUnofficial", showUnofficial)]) = inr r ->
    ok_response r (JObj res) ->
    dict_get res "contest" = Some contest -> mapping contest = true ->
    dict_get res "problems" = Some (JArr problems) ->
    forallb mapping problems = true ->
    dict_get res "rows" = Some (JArr rows) ->
    forallb (well_shaped RanklistRow) rows = true ->
    exists rs,
      fst (contest_standings w contestId from_row count handles room showUnofficial
             self)
      = inr (PList [plain_record Contest contest;
                    PList (map (plain_record Problem) problems);
                    PList rs]) /\
      List.length rs = List.length rows /\
      Forall (fun r => exists self, r = PObj RanklistRow self) rs.
Proof.
  intros w self contestId from_row count handles room showUnofficial r res
    contest problems rows Hguard Hreq Hresp Hc Hcm Hp Hpm Hr Hrm.
  destruct (request_api_ok _ _ _ _ _ _ Hreq Hresp) as (m & Hres & Hrun).
  destruct (mapM_new_well_shaped RanklistRow rows Hrm) as (rs & Ers & Hlen & Hall).
  exists rs. split; [|split; trivial].
  unfold contest_standings. unfold mbind at 1. rewrite Hguard. cbn [lift].
  unfold mbind at 1. rewrite Hrun.
  unfold mbind at 1. rewrite (last_api_item_json _ _ _ _ _ Hres).
  unfold mbind at 1. cbn [lift getitem]. rewrite Hc. cbn [ret].
  unfold mbind at 1. cbn [lift new]. rewrite (new_plain_mapping _ _ Hcm).
  unfold mbind at 1. rewrite (last_api_item_json _ _ _ _ _ Hres).
  unfold mbind at 1. cbn [lift getitem]. rewrite Hp. cbn [ret].
  unfold mbind at 1. cbn [lift]. change (new Problem) with (new_plain Problem).
  rewrite (list_map_mappings Problem (JArr problems) Hpm). cbn [elements].
  unfold mbind at 1. rewrite (last_api_item_json _ _ _ _ _ Hres).
  unfold mbind at 1. cbn [lift getitem]. rewrite Hr. cbn [ret].
  unfold mbind at 1. unfold list_map. cbn [lift iter ret bind]. rewrite Ers.
  reflexivity.
Qed.

(** C7 on a concrete call: the first element of the returned list is a
    [Contest] record, where the documentation of the method announces a
    list of [Contest] records. *)
Theorem contest_standings_first_is_record :
  contest_standings (service standings_566)
    (VAtom (AInt 566)) (VAtom (AInt 1)) (VAtom (AInt 5)) (VAtom ANone) (VAtom ANone)
    (VAtom (ABool true)) anonymous
  = (inr (PList
            [PObj Contest [("id", PJson (JNum 566));
                           ("name", PJson (JStr "VK Cup 2015 - Finals"))];
             PList [PObj Problem [("contestId", PJson (JNum 566));
                                  ("index", PJson (JStr "A"))]];
             PList [PObj RanklistRow
                      [("party",
                        PObj Party
                          [("members",
                            PList [PObj Member [("handle", PJson (JStr "tourist"))]])]);
                       ("rank", PJson (JNum 1));
                       ("problemResults",
                        PList [PObj ProblemResult [("points", PJson (JNum 500))]])]]]),
     mkApi (mkConfig None None "en")
           (LastJson (JObj [("status", JStr "OK"); ("result", standings_566)]))
           ["http://codeforces.com/api/contest.standings?contestId=566&count=5&from=1&lang=en&showUnofficial=True"]).
Proof. vm_compute. reflexivity. Qed.

(** Above the limit, [problemset_recentStatus] raises its validation error
    and touches nothing. *)
Lemma problemset_recentStatus_over : forall w self count problemsetName,
  (1000 < count)%Z ->
  problemset_recentStatus w count problemsetName self
  = (inl (TypeError ("count is " ++ str (AInt count) ++ ". Maximim: 1000")), self).
Proof.
  intros w self count problemsetName H. unfold problemset_recentStatus.
  apply Z.ltb_lt in H. rewrite H. reflexivity.
Qed.

(** Up to the limit, the request is issued. *)
Lemma problemset_recentStatus_within : forall w self count problemsetName,
  (count <= 1000)%Z ->
  sent (snd (problemset_recentStatus w count problemsetName self))
  = (sent self ++
     [api_url w self "problemset.recentStatus"
        [("count", VAtom (AInt count)); ("problemsetName", problemsetName)]])%list.
Proof.
  intros w self count problemsetName H. unfold problemset_recentStatus.
  apply Z.ltb_ge in H. rewrite H.
  rewrite <- request_api_sent. unfold mbind at 1.
  destruct (request_api w "problemset.recentStatus"
              [("count", VAtom (AInt count)); ("problemsetName", problemsetName)] self)
    as [[e|j] self']; [reflexivity|].
  unfold mbind. cbn [snd].
  pose proof (last_api_item_state "result" self') as Hst.
  destruct (last_api_item "result" self') as [[e|result] self'']; cbn [snd] in *;
    subst; reflexivity.
Qed.

(** C9: [problemset_recentStatus] with [count=1001] raises its validation
    error, issues no request and leaves the object as it was; with
    [count=1000] the check passes: the call goes on to [request_api], which
    issues the request. *)
Theorem problemset_recentStatus_count_limit :
  forall (w : world) (self : api) (problemsetName : value),
    problemset_recentStatus w 1001 problemsetName self
      = (inl (TypeError "count is 1001. Maximim: 1000"), self) /\
    problemset_recentStatus w 1000 problemsetName self
      = (_ <~ request_api w "problemset.recentStatus"
                [("count", VAtom (AInt 1000)); ("problemsetName", problemsetName)] ;;
         result <~ last_api_item "result" ;;
         lift (list_map (new Submission) result)) self /\
    sent (snd (problemset_recentStatus w 1000 problemsetName self))
      = (sent self ++
         [api_url w self "problemset.recentStatus"
            [("count", VAtom (AInt 1000)); ("problemsetName", problemsetName)]])%list.
Proof.
  intros w self problemsetName. split; [|split].
  - apply (problemset_recentStatus_over w self 1001 problemsetName). lia.
  - reflexivity.
  - apply problemset_recentStatus_within. lia.
Qed.

Example problemset_recentStatus_1000 :
  problemset_recentStatus
    (service (JArr [JObj [("id", JNum 1);
                          ("problem", JObj [("index", JStr "A")]);
                          ("author", JObj [("members", JArr [JObj [("handle", JStr "tourist")]])])]]))
    1000 (VAtom ANone) anonymous
  = (inr (PList [PObj Submission
                   [("id", PJson (JNum 1));
                    ("problem", PObj Problem [("index", PJson (JStr "A"))]);
                    ("author",
                     PObj Party
                       [("members",
                         PList [PObj Member [("handle", PJson (JStr "tourist"))]])])]]),
     mkApi (mkConfig None None "en")
       (LastJson
          (JObj [("status", JStr "OK");
                 ("result",
                  JArr [JObj [("id", JNum 1);
                              ("problem", JObj [("index", JStr "A")]);
                              ("author",
                               JObj [("members",
                                      JArr [JObj [("handle", JStr "tourist")]])])]])]))
       ["http://codeforces.com/api/problemset.recentStatus?count=1000&lang=en"]).
Proof. vm_compute. reflexivity. Qed.

(* ================================================================= *)
(** ** Transport: failures and the trace of requests *)

(** X1: when the HTTP layer reports a failure, [request_api] raises
    [ConnectionError] with the status code of the response, keeps the
    [Response] object in [last_api], and has asked for one URL. *)
Theorem request_api_http_error :
  forall (w : world) (self : api) (method : string) (kwargs : dict value)
         (r : response),
    http_request w (api_url w self method kwargs) = inr r ->
    ok r = false ->
    request_api w method kwargs self =
    (inl (ConnectionError
            ("Request status" ++ spaces 35 ++ "is " ++ str (AInt (status_code r))) None),
     mkApi (conf self) (LastResponse r)
           (sent self ++ [api_url w self method kwargs])).
Proof.
  intros w self method kwargs r Hreq Hok.
  unfold request_api. revert Hreq.
  generalize (api_url w self method kwargs). intros url Hreq.
  unfold mbind, http_get, set_last_api, _check_request, last_status_code, mraise.
  rewrite Hreq, Hok. reflexivity.
Qed.

Lemma request_api_http_error_witness :
  request_api
    (mkWorld 0 (fun _ => 0) (fun _ => inr (mkResponse false 503 None)))
    "user.info" [("handles", VList [AStr "tourist"])] anonymous =
  (inl (ConnectionError ("Request status" ++ spaces 35 ++ "is 503") None),
   mkApi (mkConfig None None "en") (LastResponse (mkResponse false 503 None))
         ["http://codeforces.com/api/user.info?handles=tourist&lang=en"]).
Proof.
  exact (request_api_http_error
           (mkWorld 0 (fun _ => 0) (fun _ => inr (mkResponse false 503 None)))
           anonymous "user.info" [("handles", VList [AStr "tourist"])]
           (mkResponse false 503 None) eq_refl eq_refl).
Defined.

(** X2: when the service answers with a status other than ["OK"],
    [request_api] raises [ConnectionError] whose second argument is the
    [comment] of the answer (the message keeps its placeholder), and
    [last_api] holds the parsed answer. *)
Theorem request_api_failed_status :
  forall (w : world) (self : api) (method : string) (kwargs : dict value)
         (r : response) (m : list (string * json)) (status comment : json),
    http_request w (api_url w self method kwargs) = inr r ->
    ok r = true ->
    body r = Some (JObj m) ->
    dict_get m "status" = Some status ->
    status <> JStr "OK" ->
    dict_get m "comment" = Some comment ->
    request_api w method kwargs self =
    (inl (ConnectionError ("Codeforces API error:" ++ spaces 35 ++ "{}")
                          (Some (PJson comment))),
     mkApi (conf self) (LastJson (JObj m))
           (sent self ++ [api_url w self method kwargs])).
Proof.
  intros w self method kwargs r m status comment Hreq Hok Hbody Hst Hne Hc.
  unfold request_api. revert Hreq.
  generalize (api_url w self method kwargs). intros url Hreq.
  unfold mbind, http_get, set_last_api, _check_request, lift, response_json,
    last_api_item, mret, mraise.
  rewrite Hreq, Hok, Hbody. cbn [negb last_api ret getitem]. rewrite Hst.
  cbn [last_api ret].
  assert (Hn : ne_str (PJson status) "OK" = true).
  { destruct status; try reflexivity. simpl.
    destruct (String.eqb_spec s "OK") as [->|]; [contradiction | reflexivity]. }
  rewrite Hn. cbn [last_api getitem]. rewrite Hc. reflexivity.
Qed.

Lemma request_api_failed_status_witness :
  request_api
    (mkWorld 0 (fun _ => 0)
       (fun _ => inr (mkResponse true 200
                        (Some (JObj [("status", JStr "FAILED");
                                     ("comment", JStr "handles: User not found")])))))
    "user.info" [("handles", VList [AStr "nobody"])] anonymous =
  (inl (ConnectionError ("Codeforces API error:" ++ spaces 35 ++ "{}")
                        (Some (PJson (JStr "handles: User not found")))),
   mkApi (mkConfig None None "en")
         (LastJson (JObj [("status", JStr "FAILED");
                          ("comment", JStr "handles: User not found")]))
         ["http://codeforces.com/api/user.info?handles=nobody&lang=en"]).
Proof.
  assert (Hne : JStr "FAILED" <> JStr "OK") by discriminate.
  exact (request_api_failed_status
           (mkWorld 0 (fun _ => 0)
              (fun _ => inr (mkResponse true 200
                               (Some (JObj [("status", JStr "FAILED");
                                            ("comment", JStr "handles: User not found")])))))
           anonymous "user.info" [("handles", VList [AStr "nobody"])]
           (mkResponse true 200
              (Some (JObj [("status", JStr "FAILED");
                           ("comment", JStr "handles: User not found")])))
           [("status", JStr "FAILED"); ("comment", JStr "handles: User not found")]
           (JStr "FAILED") (JStr "handles: User not found")
           eq_refl eq_refl eq_refl eq_refl Hne eq_refl).
Defined.

(** X3: an answer that is not ["OK"] and has no [comment] makes
    [request_api] raise [KeyError] for [comment], not [ConnectionError];
    an answer without [status] makes it raise [KeyError] for [status]. *)
Theorem request_api_missing_field :
  forall (w : world) (self : api) (method : string) (kwargs : dict value)
         (r : response) (m : list (string * json)),
    http_request w (api_url w self method kwargs) = inr r ->
    ok r = true ->
    body r = Some (JObj m) ->
    (dict_get m "status" = None ->
     fst (request_api w method kwargs self) = inl (KeyError "status")) /\
    (forall status, dict_get m "status" = Some status -> status <> JStr "OK" ->
                    dict_get m "comment" = None ->
     fst (request_api w method kwargs self) = inl (KeyError "comment")).
Proof.
  intros w self method kwargs r m Hreq Hok Hbody.
  unfold request_api. revert Hreq.
  generalize (api_url w self method kwargs). intros url Hreq.
  unfold mbind, http_get, set_last_api, _check_request, lift, response_json,
    last_api_item, mret, mraise.
  rewrite Hreq, Hok, Hbody. cbn [negb last_api ret getitem]. split.
  - intros ->. reflexivity.
  - intros status -> Hne Hc. cbn [last_api ret].
    assert (Hn : ne_str (PJson status) "OK" = true).
    { destruct status; try reflexivity. simpl.
      destruct (String.eqb_spec s "OK") as [->|]; [contradiction | reflexivity]. }
    rewrite Hn. cbn [last_api getitem]. rewrite Hc. reflexivity.
Qed.

Lemma request_api_missing_field_witness :
  fst (request_api
         (mkWorld 0 (fun _ => 0)
            (fun _ => inr (mkResponse true 200 (Some (JObj [("status", JStr "FAILED")])))))
         "user.info" [("handles", VList [AStr "nobody"])] anonymous)
  = inl (KeyError "comment").
Proof.
  assert (Hne : JStr "FAILED" <> JStr "OK") by discriminate.
  exact (proj2 (request_api_missing_field
                  (mkWorld 0 (fun _ => 0)
                     (fun _ => inr (mkResponse true 200
                                      (Some (JObj [("status", JStr "FAILED")])))))
                  anonymous "user.info" [("handles", VList [AStr "nobody"])]
                  (mkResponse true 200 (Some (JObj [("status", JStr "FAILED")])))
                  [("status", JStr "FAILED")] eq_refl eq_refl eq_refl)
               (JStr "FAILED") eq_refl Hne eq_refl).
Defined.

(** X4: a body that is not JSON makes [request_api] raise the error of
    [Response.json()], and [last_api] keeps the [Response] object, not a
    parsed answer. *)
Theorem request_api_body_not_json :
  forall (w : world) (self : api) (method : string) (kwargs : dict value)
         (r : response),
    http_request w (api_url w self method kwargs) = inr r ->
    ok r = true ->
    body r = None ->
    exists msg,
      request_api w method kwargs self =
      (inl (ValueError msg),
       mkApi (conf self) (LastResponse r)
             (sent self ++ [api_url w self method kwargs])).
Proof.
  intros w self method kwargs r Hreq Hok Hbody.
  unfold request_api. revert Hreq.
  generalize (api_url w self method kwargs). intros url Hreq.
  unfold mbind, http_get, set_last_api, _check_request, lift, response_json, mret.
  rewrite Hreq, Hok, Hbody. eexists. reflexivity.
Qed.

Lemma request_api_body_not_json_witness :
  exists msg,
    request_api (mkWorld 0 (fun _ => 0) (fun _ => inr (mkResponse true 200 None)))
      "contest.list" [("gym", VAtom (ABool false))] anonymous =
    (inl (ValueError msg),
     mkApi (mkConfig None None "en") (LastResponse (mkResponse true 200 None))
           ["http://codeforces.com/api/contest.list?gym=False&lang=en"]).
Proof.
  exact (request_api_body_not_json
           (mkWorld 0 (fun _ => 0) (fun _ => inr (mkResponse true 200 None)))
           anonymous "contest.list" [("gym", VAtom (ABool false))]
           (mkResponse true 200 None) eq_refl eq_refl eq_refl).
Defined.

Lemma request_api_conf : forall w self method kwargs,
  conf (snd (request_api w method kwargs self)) = conf self.
Proof.
  intros w self method kwargs.
  unfold request_api. generalize (api_url w self method kwargs). intro url.
  unfold mbind, http_get, set_last_api, _check_request, lift,
    response_json, last_api_item, last_status_code, mraise, mret.
  destruct (http_request w url) as [e|r]; [reflexivity|].
  state_simpl.
  destruct (ok r); state_simpl; [|reflexivity].
  destruct (body r) as [j|]; state_simpl; [|reflexivity].
  destruct (getitem (PJson j) "status") as [e|status]; [reflexivity|].
  destruct (ne_str status "OK"); state_simpl; [|reflexivity].
  destruct (getitem (PJson j) "comment"); reflexivity.
Qed.

(** X5: whatever the service does, [request_api] asks for exactly one URL,
    [_api_link + method + '?' + query], never a second time, and leaves
    the key, the secret and the language as they were. *)
Theorem request_api_one_request :
  forall (w : world) (self : api) (method : string) (kwargs : dict value),
    sent (snd (request_api w method kwargs self))
    = (sent self ++
       [("http://codeforces.com/api/" ++ method ++ "?" ++
         _url_api_request (conf self) (now w) (rng w) method kwargs)%string])%list /\
    conf (snd (request_api w method kwargs self)) = conf self.
Proof.
  intros w self method kwargs. split.
  - apply request_api_sent.
  - apply request_api_conf.
Qed.

(** X6: on an ["OK"] answer, [request_api] returns the whole parsed answer
    (not its [result] field) and keeps the same value in [last_api]. *)
Theorem request_api_success :
  forall (w : world) (self : api) (method : string) (kwargs : dict value)
         (r : response) (m : list (string * json)),
    http_request w (api_url w self method kwargs) = inr r ->
    ok r = true ->
    body r = Some (JObj m) ->
    dict_get m "status" = Some (JStr "OK") ->
    request_api w method kwargs self =
    (inr (JObj m),
     mkApi (conf self) (LastJson (JObj m))
           (sent self ++ [api_url w self method kwargs])).
Proof.
  intros w self method kwargs r m Hreq Hok Hbody Hst.
  unfold request_api. revert Hreq.
  generalize (api_url w self method kwargs). intros url Hreq.
  unfold mbind, http_get, set_last_api, _check_request, lift, response_json,
    last_api_item, mret.
  rewrite Hreq, Hok, Hbody. cbn [negb last_api ret getitem]. rewrite Hst.
  reflexivity.
Qed.

Lemma request_api_success_witness :
  request_api (service (JArr [])) "contest.list" [("gym", VAtom (ABool true))] anonymous =
  (inr (JObj [("status", JStr "OK"); ("result", JArr [])]),
   mkApi (mkConfig None None "en")
         (LastJson (JObj [("status", JStr "OK"); ("result", JArr [])]))
         ["http://codeforces.com/api/contest.list?gym=True&lang=en"]).
Proof.
  exact (request_api_success (service (JArr [])) anonymous "contest.list"
           [("gym", VAtom (ABool true))] (answer (JArr []))
           [("status", JStr "OK"); ("result", JArr [])]
           eq_refl eq_refl eq_refl eq_refl).
Defined.

Lemma lift_state : forall (A : Type) (r : result A) (self : api),
  snd (lift r self) = self.
Proof. reflexivity. Qed.

Lemma mret_state : forall (A : Type) (a : A) (self : api), snd (mret a self) = self.
Proof. reflexivity. Qed.

Lemma mraise_state : forall (A : Type) (e : exn) (self : api),
  snd (@mraise A e self) = self.
Proof. reflexivity. Qed.

Lemma mbind_state : forall (A B : Type) (m : M A) (k : A -> M B),
  (forall self, snd (m self) = self) ->
  (forall a self, snd (k a self) = self) ->
  forall self, snd (mbind m k self) = self.
Proof.
  intros A B m k Hm Hk self. unfold mbind.
  specialize (Hm self). destruct (m self) as [[e|a] self']; cbn [snd] in *.
  - exact Hm.
  - now rewrite Hk.
Qed.

(** Steps that only read the object. *)
Ltac reads_only :=
  intros;
  repeat first
    [ apply last_api_item_state
    | apply lift_state
    | apply mret_state
    | apply mraise_state
    | apply mbind_state; intros ].

(** After [request_api], steps that only read the object leave the trace
    as [request_api] left it. *)
Lemma request_then_read_sent :
  forall (B : Type) (w : world) (method : string) (kwargs : dict value)
         (k : json -> M B) (self : api),
    (forall j self', snd (k j self') = self') ->
    sent (snd (mbind (request_api w method kwargs) k self))
    = (sent self ++ [api_url w self method kwargs])%list.
Proof.
  intros B w method kwargs k self Hk.
  rewrite <- request_api_sent. unfold mbind.
  destruct (request_api w method kwargs self) as [[e|j] self']; cbn [snd].
  - reflexivity.
  - now rewrite Hk.
Qed.

(* ================================================================= *)
(** ** Configuration and validation *)

(** X7: the constructor accepts the languages ["en"] and ["ru"] and no
    other: with one of them it gives an object holding the key, the secret
    and the language, with no last answer and nothing requested; with any
    other language it raises [TypeError]. *)
Theorem CodeforcesAPI_lang :
  forall (key secret : option string) (lang : string),
    (CodeforcesAPI key secret lang = inr (mkApi (mkConfig key secret lang) Unset [])
     <-> lang = "en" \/ lang = "ru") /\
    (forall e, CodeforcesAPI key secret lang = inl e -> exists msg, e = TypeError msg).
Proof.
  intros key secret lang. unfold CodeforcesAPI, lang_ok.
  destruct (String.eqb_spec lang "ru") as [->|Hru];
    [|destruct (String.eqb_spec lang "en") as [->|Hen]]; cbn [orb].
  - split; [split; [now right | reflexivity] | discriminate].
  - split; [split; [now left | reflexivity] | discriminate].
  - split.
    + split; [discriminate | intros [?|?]; contradiction].
    + intros e [= <-]. eexists. reflexivity.
Qed.

Lemma CodeforcesAPI_lang_witness :
  CodeforcesAPI (Some "ABC") (Some "xyz") "ru"
  = inr (mkApi (mkConfig (Some "ABC") (Some "xyz") "ru") Unset []) /\
  exists msg, CodeforcesAPI None None "de" = inl (TypeError msg).
Proof.
  split.
  - apply (proj1 (CodeforcesAPI_lang (Some "ABC") (Some "xyz") "ru")). now right.
  - destruct (proj2 (CodeforcesAPI_lang None None "de") _ eq_refl) as [msg E].
    exists msg. rewrite <- E. reflexivity.
Defined.

Set Warnings "-abstract-large-number".

(** X8: [user_info] with more than 10000 handles raises its validation
    error, issues no request and leaves the object as it was. *)
Theorem user_info_too_many_handles :
  forall (w : world) (self : api) (handles : value) (hs : list atom),
    wrap_str handles = VList hs ->
    (10000 < Z.of_nat (List.length hs))%Z ->
    user_info w handles self =
    (inl (TypeError ("handles len is " ++ str_nat (List.length hs) ++ "." ++ spaces 30
                     ++ "Maximum: 10000")), self).
Proof.
  intros w self handles hs Hwrap H. unfold user_info. rewrite Hwrap.
  unfold mbind at 1. cbn [lift len_value ret].
  apply Z.ltb_lt in H. rewrite H. reflexivity.
Qed.

Lemma user_info_too_many_handles_witness :
  user_info (service (JArr [])) (VList (repeat (AStr "tourist") 10001)) anonymous =
  (inl (TypeError ("handles len is 10001." ++ spaces 30 ++ "Maximum: 10000")), anonymous).
Proof.
  assert (H : (10000 < Z.of_nat (List.length (repeat (AStr "tourist") 10001)))%Z)
    by (vm_compute; reflexivity).
  exact (user_info_too_many_handles (service (JArr [])) anonymous
           (VList (repeat (AStr "tourist") 10001)) (repeat (AStr "tourist") 10001)
           eq_refl H).
Defined.

(** X9: the shape of the result of [user_info] is decided by the answer
    alone: an answer with exactly one user gives one [User] record, however
    many handles were asked for, and any other answer gives the list of the
    [User] records. *)
Theorem user_info_shape_by_answer :
  forall (w : world) (self : api) (handles : value) (hs : list atom)
         (r : response) (users : list json),
    wrap_str handles = VList hs ->
    (Z.of_nat (List.length hs) <= 10000)%Z ->
    http_request w (api_url w self "user.info" [("handles", VList hs)]) = inr r ->
    ok_response r (JArr users) ->
    forallb mapping users = true ->
    fst (user_info w handles self) =
    inr (match users with
         | [u] => plain_record User u
         | _ => PList (map (plain_record User) users)
         end).
Proof.
  intros w self handles hs r users Hwrap Hmax Hreq Hresp Hmaps.
  destruct (request_api_ok w self "user.info" [("handles", VList hs)] r
              (JArr users) Hreq Hresp) as (m & Hres & Hrun).
  assert (Hguard : Z.ltb 10000 (Z.of_nat (List.length hs)) = false)
    by (apply Z.ltb_ge; exact Hmax).
  unfold user_info. rewrite Hwrap. unfold mbind at 1. cbn [lift len_value ret].
  rewrite Hguard. unfold mbind at 1. rewrite Hrun.
  unfold mbind at 1. rewrite (last_api_item_json _ _ _ _ _ Hres).
  unfold mbind at 1. cbn [lift len ret].
  pose proof (list_map_mappings User (JArr users) Hmaps) as Hlist.
  destruct users as [|u [|u' users]].
  - cbn [List.length Nat.eqb lift fst]. exact Hlist.
  - cbn [List.length Nat.eqb]. unfold mbind, lift. cbn [getitem0 ret new fst].
    simpl in Hmaps. apply andb_true_iff in Hmaps.
    now apply new_plain_mapping.
  - cbn [List.length Nat.eqb lift fst]. exact Hlist.
Qed.

Lemma user_info_shape_by_answer_witness :
  fst (user_info (service (JArr [JObj [("handle", JStr "tourist")]]))
                 (VList [AStr "tourist"; AStr "Tourist"]) anonymous)
  = inr (PObj User [("handle", PJson (JStr "tourist"))]).
Proof.
  assert (Hresp : ok_response (answer (JArr [JObj [("handle", JStr "tourist")]]))
                              (JArr [JObj [("handle", JStr "tourist")]])).
  { split; [reflexivity|]. eexists. repeat split; reflexivity. }
  assert (Hmax : (Z.of_nat (List.length [AStr "tourist"; AStr "Tourist"]) <= 10000)%Z)
    by (simpl; lia).
  exact (user_info_shape_by_answer
           (service (JArr [JObj [("handle", JStr "tourist")]])) anonymous
           (VList [AStr "tourist"; AStr "Tourist"]) [AStr "tourist"; AStr "Tourist"]
           (answer (JArr [JObj [("handle", JStr "tourist")]]))
           [JObj [("handle", JStr "tourist")]]
           eq_refl Hmax eq_refl Hresp eq_refl).
Defined.

(** [user_info] on a value that is neither a string nor a list
    ([None], an integer, a boolean) raises the [TypeError] of [len] before
    any request, whereas [contest_standings] accepts [handles=None] and
    goes on to its request. *)
Theorem user_info_handles_unsized :
  forall (w : world) (self : api) (a : atom),
    (forall s, a <> AStr s) ->
    (exists msg, user_info w (VAtom a) self = (inl (TypeError msg), self)) /\
    (forall contestId from_row count room showUnofficial,
        sent (snd (contest_standings w contestId from_row count (VAtom ANone) room
                     showUnofficial self))
        <> sent self).
Proof.
  intros w self a Ha. split.
  - destruct a as [s| | |]; [now contradiction (Ha s) | | |];
      eexists; reflexivity.
  - intros contestId from_row count room showUnofficial.
    unfold contest_standings. unfold mbind at 1.
    cbn [wrap_str lift too_many_handles is_None negb ret].
    rewrite request_then_read_sent by reads_only.
    intro E. apply (f_equal (@List.length string)) in E.
    rewrite length_app in E. simpl in E. lia.
Qed.

Lemma user_info_handles_unsized_witness :
  exists msg,
    user_info (service (JArr [])) (VAtom ANone) anonymous
    = (inl (TypeError msg), anonymous).
Proof.
  assert (Ha : forall s, ANone <> AStr s) by (intros s; discriminate).
  exact (proj1 (user_info_handles_unsized (service (JArr [])) anonymous ANone Ha)).
Defined.

(** X10: [recentActions] with [maxCount] above 100 raises its validation
    error without any request and leaves the object as it was; with any
    [maxCount] up to 100 (zero and negative numbers too) it issues its
    request. *)
Theorem recentActions_limit :
  forall (w : world) (self : api) (maxCount : Z),
    ((100 < maxCount)%Z ->
     recentActions w maxCount self =
     (inl (TypeError ("maxCount is " ++ str (AInt maxCount) ++ ". Maximum: 100")), self)) /\
    ((maxCount <= 100)%Z ->
     sent (snd (recentActions w maxCount self))
     = (sent self ++
        [api_url w self "recentActions" [("maxCount", VAtom (AInt maxCount))]])%list).
Proof.
  intros w self maxCount. unfold recentActions. split; intro H.
  - apply Z.ltb_lt in H. rewrite H. reflexivity.
  - apply Z.ltb_ge in H. rewrite H.
    apply request_then_read_sent. reads_only.
Qed.

Lemma recentActions_limit_witness :
  recentActions (service (JArr [])) 101 anonymous =
  (inl (TypeError "maxCount is 101. Maximum: 100"), anonymous) /\
  sent (snd (recentActions (service (JArr [])) 100 anonymous))
  = ["http://codeforces.com/api/recentActions?lang=en&maxCount=100"].
Proof.
  split.
  - apply (proj1 (recentActions_limit (service (JArr [])) anonymous 101)). lia.
  - apply (proj2 (recentActions_limit (service (JArr [])) anonymous 100)). lia.
Defined.

(** The limit of [problemset_recentStatus] lies exactly at 1000 for
    every [count]: above it the validation error is raised with the object
    untouched, up to it (zero and negative numbers too) the request is
    issued. *)
Theorem problemset_recentStatus_limit :
  forall (w : world) (self : api) (count : Z) (problemsetName : value),
    ((1000 < count)%Z ->
     problemset_recentStatus w count problemsetName self =
     (inl (TypeError ("count is " ++ str (AInt count) ++ ". Maximim: 1000")), self)) /\
    ((count <= 1000)%Z ->
     sent (snd (problemset_recentStatus w count problemsetName self))
     = (sent self ++
        [api_url w self "problemset.recentStatus"
           [("count", VAtom (AInt count)); ("problemsetName", problemsetName)]])%list).
Proof.
  intros w self count problemsetName. split; intro H.
  - now apply problemset_recentStatus_over.
  - now apply problemset_recentStatus_within.
Qed.

Lemma problemset_recentStatus_limit_witness :
  problemset_recentStatus (service (JArr [])) 5000 (VAtom ANone) anonymous =
  (inl (TypeError "count is 5000. Maximim: 1000"), anonymous) /\
  sent (snd (problemset_recentStatus (service (JArr [])) (-3) (VAtom (AStr "acmsguru"))
               anonymous))
  = ["http://codeforces.com/api/problemset.recentStatus?count=-3&lang=en&problemsetName=acmsguru"].
Proof.
  split.
  - apply (proj1 (problemset_recentStatus_limit (service (JArr [])) anonymous 5000
                    (VAtom ANone))). lia.
  - apply (proj2 (problemset_recentStatus_limit (service (JArr [])) anonymous (-3)
                    (VAtom (AStr "acmsguru")))). lia.
Defined.

(** [contest_standings] with more than 10000 handles raises its
    validation error without any request and leaves the object as it was;
    a single handle given as a string is one handle. *)
Theorem contest_standings_too_many_handles :
  forall (w : world) (self : api)
         (contestId from_row count handles room showUnofficial : value)
         (hs : list atom),
    wrap_str handles = VList hs ->
    (10000 < Z.of_nat (List.length hs))%Z ->
    contest_standings w contestId from_row count handles room showUnofficial self =
    (inl (TypeError ("handles len is " ++ str_nat (List.length hs) ++ "." ++ spaces 29
                     ++ "Maximum: 10000")), self).
Proof.
  intros w self contestId from_row count handles room showUnofficial hs Hwrap H.
  unfold contest_standings. rewrite Hwrap. unfold mbind at 1.
  cbn [lift too_many_handles is_None negb len_value bind ret].
  apply Z.ltb_lt in H. rewrite H. reflexivity.
Qed.

Lemma contest_standings_too_many_handles_witness :
  contest_standings (service (JArr [])) (VAtom (AInt 566)) (VAtom ANone) (VAtom ANone)
    (VList (repeat (AStr "tourist") 10001)) (VAtom ANone) (VAtom ANone) anonymous =
  (inl (TypeError ("handles len is 10001." ++ spaces 29 ++ "Maximum: 10000")), anonymous).
Proof.
  assert (H : (10000 < Z.of_nat (List.length (repeat (AStr "tourist") 10001)))%Z)
    by (vm_compute; reflexivity).
  exact (contest_standings_too_many_handles (service (JArr [])) anonymous
           (VAtom (AInt 566)) (VAtom ANone) (VAtom ANone)
           (VList (repeat (AStr "tourist") 10001)) (VAtom ANone) (VAtom ANone)
           (repeat (AStr "tourist") 10001) eq_refl H).
Defined.

Lemma sorted_pair : forall a b, str_le a b -> sorted [a; b] = [a; b].
Proof.
  intros a b H. apply StronglySorted_unique.
  - apply sorted_StronglySorted.
  - repeat constructor. exact H.
  - apply sorted_Permutation.
Qed.

(** X11: without credentials, [contest_standings] called with a contest
    and a first row only asks for
    [contest.standings?contestId=..&from=..&lang=..]: the row parameter
    [from_row] goes out under the name [from], and the parameters left at
    [None] are not sent. *)
Theorem contest_standings_query :
  forall (w : world) (lang : string) (last : last) (trace : list string)
         (contestId from_row : Z),
    sent (snd (contest_standings w (VAtom (AInt contestId)) (VAtom (AInt from_row))
                 (VAtom ANone) (VAtom ANone) (VAtom ANone) (VAtom ANone)
                 (mkApi (mkConfig None None lang) last trace)))
    = (trace ++
       [("http://codeforces.com/api/contest.standings?contestId=" ++ str (AInt contestId)
         ++ "&from=" ++ str (AInt from_row) ++ "&lang=" ++ lang)%string])%list.
Proof.
  intros w lang last trace contestId from_row.
  unfold contest_standings. unfold mbind at 1.
  cbn [wrap_str lift too_many_handles is_None negb ret].
  rewrite request_then_read_sent by reads_only.
  cbn [sent]. reflexivity.
Qed.

(** X12: what three other methods ask for, without credentials:
    [contest_status] and [user_status] send their [from_sub] under the
    name [from] and leave out the parameters that are [None];
    [user_ratedList] sends [active_only] under the name [activeOnly], and a
    boolean goes out as [True] or [False]. *)
Theorem status_queries :
  forall (w : world) (lang : string) (last : last) (trace : list string)
         (contestId from_sub count : Z) (handle : string) (active : bool),
    sent (snd (contest_status w (VAtom (AInt contestId)) (VAtom ANone)
                 (VAtom (AInt from_sub)) (VAtom (AInt count))
                 (mkApi (mkConfig None None lang) last trace)))
    = (trace ++
       [("http://codeforces.com/api/contest.status?contestId=" ++ str (AInt contestId)
         ++ "&count=" ++ str (AInt count) ++ "&from=" ++ str (AInt from_sub)
         ++ "&lang=" ++ lang)%string])%list /\
    sent (snd (user_status w (VAtom (AStr handle)) (VAtom (AInt from_sub)) (VAtom ANone)
                 (mkApi (mkConfig None None lang) last trace)))
    = (trace ++
       [("http://codeforces.com/api/user.status?from=" ++ str (AInt from_sub)
         ++ "&handle=" ++ handle ++ "&lang=" ++ lang)%string])%list /\
    sent (snd (user_ratedList w (VAtom (ABool active))
                 (mkApi (mkConfig None None lang) last trace)))
    = (trace ++
       [("http://codeforces.com/api/user.ratedList?activeOnly="
         ++ (if active then "True" else "False") ++ "&lang=" ++ lang)%string])%list.
Proof.
  intros w lang last trace contestId from_sub count handle active.
  unfold contest_status, user_status, user_ratedList, records_of.
  rewrite !request_then_read_sent by reads_only.
  cbn [sent]. repeat split; reflexivity.
Qed.

Lemma request_then_records :
  forall (w : world) (self : api) (method : string) (kwargs : dict value)
         (c : cls) (r : response) (items : list json),
    http_request w (api_url w self method kwargs) = inr r ->
    ok_response r (JArr items) ->
    forallb (well_shaped c) items = true ->
    returns_records c (mbind (request_api w method kwargs) (fun _ => records_of c) self)
                    items.
Proof.
  intros w self method kwargs c r items Hreq Hresp Hitems.
  destruct (request_api_ok _ _ _ _ _ _ Hreq Hresp) as (m & Hres & Hrun).
  destruct (mapM_new_well_shaped c items Hitems) as (rs & Ers & Hlen & Hall).
  exists rs. split; [|split; trivial].
  unfold mbind at 1. rewrite Hrun. unfold records_of.
  unfold mbind at 1. rewrite (last_api_item_json _ _ _ _ _ Hres).
  unfold lift, list_map. cbn [iter ret bind fst]. rewrite Ers. reflexivity.
Qed.

(** X13: every method that returns a list of records returns, on an ["OK"]
    answer whose result is a list of payloads of the shape its class
    expects, one record of that class for each payload, in the order of
    the answer. *)
Theorem list_endpoints_records :
  forall (w : world) (self : api) (r : response) (items : list json),
    (forall url, http_request w url = inr r) ->
    ok_response r (JArr items) ->
    (forall blogEntryId, forallb (well_shaped Comment) items = true ->
       returns_records Comment (blogEntry_comments w blogEntryId self) items) /\
    (forall contestId, forallb (well_shaped Hack) items = true ->
       returns_records Hack (contest_hacks w contestId self) items) /\
    (forall gym, forallb (well_shaped Contest) items = true ->
       returns_records Contest (contest_list w gym self) items) /\
    (forall contestId, forallb (well_shaped RatingChange) items = true ->
       returns_records RatingChange (contest_ratingChanges w contestId self) items) /\
    (forall contestId handle from_sub count,
       forallb (well_shaped Submission) items = true ->
       returns_records Submission (contest_status w contestId handle from_sub count self)
                       items) /\
    (forall count problemsetName, (count <= 1000)%Z ->
       forallb (well_shaped Submission) items = true ->
       returns_records Submission (problemset_recentStatus w count problemsetName self)
                       items) /\
    (forall maxCount, (maxCount <= 100)%Z ->
       forallb (well_shaped RecentAction) items = true ->
       returns_records RecentAction (recentActions w maxCount self) items) /\
    (forall handle, forallb (well_shaped BlogEntry) items = true ->
       returns_records BlogEntry (user_blogEntries w handle self) items) /\
    (forall active_only, forallb (well_shaped User) items = true ->
       returns_records User (user_ratedList w active_only self) items) /\
    (forall handle, forallb (well_shaped RatingChange) items = true ->
       returns_records RatingChange (user_rating w handle self) items) /\
    (forall handle from_sub count, forallb (well_shaped Submission) items = true ->
       returns_records Submission (user_status w handle from_sub count self) items).
Proof.
  intros w self r items Hreq Hresp.
  repeat split; intros;
    try (eapply request_then_records; [apply Hreq | exact Hresp | assumption]).
  - unfold problemset_recentStatus.
    match goal with H : (_ <= 1000)%Z |- _ => apply Z.ltb_ge in H; rewrite H end.
    eapply (request_then_records w self "problemset.recentStatus" _ Submission);
      [apply Hreq | exact Hresp | assumption].
  - unfold recentActions.
    match goal with H : (_ <= 100)%Z |- _ => apply Z.ltb_ge in H; rewrite H end.
    eapply (request_then_records w self "recentActions" _ RecentAction);
      [apply Hreq | exact Hresp | assumption].
Qed.

Lemma list_endpoints_records_witness :
  returns_records Hack
    (contest_hacks
       (service (JArr [JObj [("id", JNum 1);
                             ("hacker", JObj [("members", JArr [])]);
                             ("defender",
                              JObj [("members", JArr [JObj [("handle", JStr "tourist")]])])]]))
       (VAtom (AInt 566)) anonymous)
    [JObj [("id", JNum 1);
           ("hacker", JObj [("members", JArr [])]);
           ("defender", JObj [("members", JArr [JObj [("handle", JStr "tourist")]])])]].
Proof.
  assert (Hresp : ok_response
            (answer (JArr [JObj [("id", JNum 1);
                                 ("hacker", JObj [("members", JArr [])]);
                                 ("defender",
                                  JObj [("members",
                                         JArr [JObj [("handle", JStr "tourist")]])])]]))
            (JArr [JObj [("id", JNum 1);
                         ("hacker", JObj [("members", JArr [])]);
                         ("defender",
                          JObj [("members", JArr [JObj [("handle", JStr "tourist")]])])]])).
  { split; [reflexivity|]. eexists. repeat split; reflexivity. }
  exact (proj1 (proj2 (list_endpoints_records
                         (service (JArr [JObj [("id", JNum 1);
                                               ("hacker", JObj [("members", JArr [])]);
                                               ("defender",
                                                JObj [("members",
                                                       JArr [JObj [("handle",
                                                                    JStr "tourist")]])])]]))
                         anonymous _ _ (fun _ => eq_refl) Hresp))
               (VAtom (AInt 566)) eq_refl).
Defined.

(** X14: [blogEntry_view] returns one [BlogEntry] record made from the
    result of the answer, not a list. *)
Theorem blogEntry_view_record :
  forall (w : world) (self : api) (blogEntryId : value) (r : response) (entry : json),
    http_request w (api_url w self "blogEntry.view" [("blogEntryId", blogEntryId)])
      = inr r ->
    ok_response r entry ->
    mapping entry = true ->
    fst (blogEntry_view w blogEntryId self) = inr (plain_record BlogEntry entry).
Proof.
  intros w self blogEntryId r entry Hreq Hresp Hm.
  destruct (request_api_ok _ _ _ _ _ _ Hreq Hresp) as (m & Hres & Hrun).
  unfold blogEntry_view. unfold mbind at 1. rewrite Hrun.
  unfold mbind at 1. rewrite (last_api_item_json _ _ _ _ _ Hres).
  unfold lift. cbn [fst new]. now apply new_plain_mapping.
Qed.

Lemma blogEntry_view_record_witness :
  fst (blogEntry_view (service (JObj [("id", JNum 79); ("title", JStr "Testing")]))
         (VAtom (AInt 79)) anonymous)
  = inr (PObj BlogEntry [("id", PJson (JNum 79)); ("title", PJson (JStr "Testing"))]).
Proof.
  assert (Hresp : ok_response (answer (JObj [("id", JNum 79); ("title", JStr "Testing")]))
                              (JObj [("id", JNum 79); ("title", JStr "Testing")])).
  { split; [reflexivity|]. eexists. repeat split; reflexivity. }
  exact (blogEntry_view_record
           (service (JObj [("id", JNum 79); ("title", JStr "Testing")])) anonymous
           (VAtom (AInt 79)) (answer (JObj [("id", JNum 79); ("title", JStr "Testing")]))
           (JObj [("id", JNum 79); ("title", JStr "Testing")]) eq_refl Hresp eq_refl).
Defined.

(** X15: [user_friends] returns the result of the answer as it is, with no
    record made from it, whatever JSON value it is. *)
Theorem user_friends_raw :
  forall (w : world) (self : api) (onlyOnline : value) (r : response) (friends : json),
    http_request w (api_url w self "user.friends" [("onlyOnline", onlyOnline)]) = inr r ->
    ok_response r friends ->
    fst (user_friends w onlyOnline self) = inr (PJson friends).
Proof.
  intros w self onlyOnline r friends Hreq Hresp.
  destruct (request_api_ok _ _ _ _ _ _ Hreq Hresp) as (m & Hres & Hrun).
  unfold user_friends. unfold mbind at 1. rewrite Hrun.
  now rewrite (last_api_item_json _ _ _ _ _ Hres).
Qed.

Lemma user_friends_raw_witness :
  fst (user_friends (service (JArr [JStr "Fefer_Ivan"; JStr "DmitryH"]))
         (VAtom (ABool false)) anonymous)
  = inr (PJson (JArr [JStr "Fefer_Ivan"; JStr "DmitryH"])).
Proof.
  assert (Hresp : ok_response (answer (JArr [JStr "Fefer_Ivan"; JStr "DmitryH"]))
                              (JArr [JStr "Fefer_Ivan"; JStr "DmitryH"])).
  { split; [reflexivity|]. eexists. repeat split; reflexivity. }
  exact (user_friends_raw (service (JArr [JStr "Fefer_Ivan"; JStr "DmitryH"])) anonymous
           (VAtom (ABool false)) (answer (JArr [JStr "Fefer_Ivan"; JStr "DmitryH"]))
           (JArr [JStr "Fefer_Ivan"; JStr "DmitryH"]) eq_refl Hresp).
Defined.

(** X16: [problemset_problems] returns a list of two lists: the [Problem]
    records of the field [problems] and the [ProblemStatistics] records of
    the field [problemStatistics], each in the order of the answer; when
    the second field is absent it raises [KeyError] although the problems
    were already wrapped. *)
Theorem problemset_problems_two_lists :
  forall (w : world) (self : api) (tags problemsetName : value) (r : response)
         (res : list (string * json)) (problems : list json),
    http_request w
      (api_url w self "problemset.problems"
         [("tags", tags); ("problemsetName", problemsetName)]) = inr r ->
    ok_response r (JObj res) ->
    dict_get res "problems" = Some (JArr problems) ->
    forallb mapping problems = true ->
    (forall statistics,
        dict_get res "problemStatistics" = Some (JArr statistics) ->
        forallb mapping statistics = true ->
        fst (problemset_problems w tags problemsetName self) =
        inr (PList [PList (map (plain_record Problem) problems);
                    PList (map (plain_record ProblemStatistics) statistics)])) /\
    (dict_get res "problemStatistics" = None ->
     fst (problemset_problems w tags problemsetName self)
     = inl (KeyError "problemStatistics")).
Proof.
  intros w self tags problemsetName r res problems Hreq Hresp Hp Hpm.
  destruct (request_api_ok _ _ _ _ _ _ Hreq Hresp) as (m & Hres & Hrun).
  assert (Hrun' :
    fst (problemset_problems w tags problemsetName self) =
    fst ((raw <~ lift (getitem (PJson (JObj res)) "problemStatistics") ;;
          statistics <~ lift (list_map (new ProblemStatistics) raw) ;;
          mret (PList [PList (map (plain_record Problem) problems); statistics]))
           (mkApi (conf self) (LastJson (JObj m))
              (sent self ++
               [api_url w self "problemset.problems"
                  [("tags", tags); ("problemsetName", problemsetName)]]))%list)).
  { unfold problemset_problems. unfold mbind at 1. rewrite Hrun.
    unfold mbind at 1. rewrite (last_api_item_json _ _ _ _ _ Hres).
    unfold mbind at 1. cbn [lift getitem]. rewrite Hp. cbn [ret].
    unfold mbind at 1. cbn [lift]. change (new Problem) with (new_plain Problem).
    rewrite (list_map_mappings Problem (JArr problems) Hpm). cbn [elements].
    unfold mbind at 1. rewrite (last_api_item_json _ _ _ _ _ Hres). reflexivity. }
  rewrite Hrun'. split.
  - intros statistics Hs Hsm.
    unfold mbind at 1. cbn [lift getitem]. rewrite Hs. cbn [ret].
    unfold mbind at 1. cbn [lift].
    change (new ProblemStatistics) with (new_plain ProblemStatistics).
    rewrite (list_map_mappings ProblemStatistics (JArr statistics) Hsm).
    reflexivity.
  - intro Hs. unfold mbind at 1. cbn [lift getitem]. rewrite Hs. reflexivity.
Qed.

Lemma problemset_problems_two_lists_witness :
  fst (problemset_problems
         (service (JObj [("problems", JArr [JObj [("index", JStr "A")]]);
                         ("problemStatistics", JArr [JObj [("solvedCount", JNum 7)]])]))
         (VList [AStr "implementation"]) (VAtom ANone) anonymous)
  = inr (PList [PList [PObj Problem [("index", PJson (JStr "A"))]];
                PList [PObj ProblemStatistics [("solvedCount", PJson (JNum 7))]]]).
Proof.
  assert (Hresp : ok_response
            (answer (JObj [("problems", JArr [JObj [("index", JStr "A")]]);
                           ("problemStatistics", JArr [JObj [("solvedCount", JNum 7)]])]))
            (JObj [("problems", JArr [JObj [("index", JStr "A")]]);
                   ("problemStatistics", JArr [JObj [("solvedCount", JNum 7)]])])).
  { split; [reflexivity|]. eexists. repeat split; reflexivity. }
  exact (proj1 (problemset_problems_two_lists
                  (service (JObj [("problems", JArr [JObj [("index", JStr "A")]]);
                                  ("problemStatistics",
                                   JArr [JObj [("solvedCount", JNum 7)]])]))
                  anonymous (VList [AStr "implementation"]) (VAtom ANone)
                  (answer (JObj [("problems", JArr [JObj [("index", JStr "A")]]);
                                 ("problemStatistics",
                                  JArr [JObj [("solvedCount", JNum 7)]])]))
                  [("problems", JArr [JObj [("index", JStr "A")]]);
                   ("problemStatistics", JArr [JObj [("solvedCount", JNum 7)]])]
                  [JObj [("index", JStr "A")]] eq_refl Hresp eq_refl eq_refl)
               [JObj [("solvedCount", JNum 7)]] eq_refl eq_refl).
Defined.

(* ================================================================= *)
(** ** Records: what the constructors wrap *)

(** X17: every record constructor refuses a payload that is not a JSON
    object (a list, a string, a number, a boolean, [null]) with the
    [AttributeError] of the missing method [items]. *)
Theorem new_not_a_mapping :
  forall (c : cls) (j : json),
    (forall m, j <> JObj m) ->
    new c (PJson j) =
    inl (AttributeError ("'" ++ type_name (PJson j)
                             ++ "' object has no attribute 'items'")).
Proof.
  intros c j Hj.
  destruct j as [| b | z | s | l | m]; try (destruct c; reflexivity).
  now contradiction (Hj m).
Qed.

Lemma new_not_a_mapping_witness :
  new Submission (PJson (JArr [JObj [("id", JNum 1)]]))
  = inl (AttributeError "'list' object has no attribute 'items'").
Proof.
  assert (H : forall m, JArr [JObj [("id", JNum 1)]] <> JObj m)
    by (intros m; discriminate).
  exact (new_not_a_mapping Submission (JArr [JObj [("id", JNum 1)]]) H).
Defined.

Lemma Submission_init_shaped : forall m p a,
  mapping (JObj m) = true ->
  dict_get m "problem" = Some p -> mapping p = true ->
  dict_get m "author" = Some a -> party_shaped a = true ->
  Submission_init (PJson (JObj m)) =
  inr (dict_set (dict_set (wrap_items m) "problem" (plain_record Problem p))
                "author" (party_record a)).
Proof.
  intros m p a Hm Hp Hpm Ha Hpa.
  unfold Submission_init. repeat construct_step. reflexivity.
Qed.

(** X18: [Submission] replaces its [problem] field by a [Problem] record,
    whereas [Hack] leaves its [problem] field as the raw JSON value: it
    wraps [hacker] and [defender] only. *)
Theorem problem_wrapped_by_submission_only :
  forall (m : list (string * json)) (p : json),
    dict_get m "problem" = Some p ->
    (well_shaped Submission (JObj m) = true ->
     exists self,
       new Submission (PJson (JObj m)) = inr (PObj Submission self) /\
       getattr self "problem" = inr (plain_record Problem p)) /\
    (well_shaped Hack (JObj m) = true ->
     exists self,
       new Hack (PJson (JObj m)) = inr (PObj Hack self) /\
       getattr self "problem" = inr (PJson p)).
Proof.
  intros m p Hp. split; intro H.
  - unfold well_shaped in H. apply andb_true_iff in H. destruct H as [Hm H].
    cbn [fields] in H. apply andb_true_iff in H. destruct H as [Hfp Hfa].
    apply field_inv in Hfp. destruct Hfp as (p' & Hp' & Hpm).
    apply field_inv in Hfa. destruct Hfa as (a & Ha & Hpa).
    assert (p' = p) as -> by congruence.
    eexists. split.
    + cbn [new]. rewrite (Submission_init_shaped m p a); trivial. reflexivity.
    + unfold getattr. rewrite !dict_get_set. reflexivity.
  - destruct (new_well_shaped Hack m H) as (self & E & _ & Hraw).
    exists self. split; [exact E|].
    unfold getattr. rewrite (Hraw "problem" p); [reflexivity | | exact Hp].
    simpl. intros [?|[?|[]]]; discriminate.
Qed.

Lemma problem_wrapped_by_submission_only_witness :
  exists self,
    new Hack (PJson (JObj [("problem", JObj [("index", JStr "A")]);
                           ("hacker", JObj [("members", JArr [])]);
                           ("defender", JObj [("members", JArr [])])]))
    = inr (PObj Hack self) /\
    getattr self "problem" = inr (PJson (JObj [("index", JStr "A")])).
Proof.
  exact (proj2 (problem_wrapped_by_submission_only
                  [("problem", JObj [("index", JStr "A")]);
                   ("hacker", JObj [("members", JArr [])]);
                   ("defender", JObj [("members", JArr [])])]
                  (JObj [("index", JStr "A")]) eq_refl) eq_refl).
Defined.

(** X19: [Party] replaces its [members] by the list of the [Member]
    records of the raw members, one for each and in the same order. *)
Theorem party_members_in_order :
  forall (m : list (string * json)) (ms : list json),
    party_shaped (JObj m) = true ->
    dict_get m "members" = Some (JArr ms) ->
    exists self,
      new Party (PJson (JObj m)) = inr (PObj Party self) /\
      getattr self "members" = inr (PList (map (plain_record Member) ms)).
Proof.
  intros m ms H Hms. cbn [new]. rewrite (new_Party_shaped _ H).
  unfold party_record. cbn [fields]. rewrite Hms. cbn [elements].
  eexists. split; [reflexivity|].
  unfold getattr. rewrite dict_get_set. reflexivity.
Qed.

Lemma party_members_in_order_witness :
  exists self,
    new Party (PJson (JObj [("teamName", JStr "duo");
                            ("members", JArr [JObj [("handle", JStr "Petr")];
                                              JObj [("handle", JStr "tourist")]])]))
    = inr (PObj Party self) /\
    getattr self "members"
    = inr (PList [PObj Member [("handle", PJson (JStr "Petr"))];
                  PObj Member [("handle", PJson (JStr "tourist"))]]).
Proof.
  exact (party_members_in_order
           [("teamName", JStr "duo");
            ("members", JArr [JObj [("handle", JStr "Petr")];
                              JObj [("handle", JStr "tourist")]])]
           [JObj [("handle", JStr "Petr")]; JObj [("handle", JStr "tourist")]]
           eq_refl eq_refl).
Defined.

(** X20: [RanklistRow] replaces its [problemResults] by the list of the
    [ProblemResult] records of the raw results, one for each and in the
    same order, so that the positions still match those of the problems;
    its [party] becomes a [Party] record. *)
Theorem ranklist_row_results_in_order :
  forall (m : list (string * json)) (p : json) (rs : list json),
    well_shaped RanklistRow (JObj m) = true ->
    dict_get m "party" = Some p ->
    dict_get m "problemResults" = Some (JArr rs) ->
    exists self,
      new RanklistRow (PJson (JObj m)) = inr (PObj RanklistRow self) /\
      getattr self "problemResults" = inr (PList (map (plain_record ProblemResult) rs)) /\
      getattr self "party" = inr (party_record p).
Proof.
  intros m p rs H Hp Hrs.
  unfold well_shaped in H. apply andb_true_iff in H. destruct H as [Hm H].
  cbn [fields] in H. apply andb_true_iff in H. destruct H as [Hfp Hfr].
  apply field_inv in Hfp. destruct Hfp as (p' & Hp' & Hps).
  apply field_inv in Hfr. destruct Hfr as (r' & Hr' & Hrm).
  assert (p' = p) as -> by congruence.
  assert (r' = JArr rs) as -> by congruence.
  cbn [new]. unfold RanklistRow_init. repeat construct_step. cbn [elements].
  eexists. split; [reflexivity|]. split.
  - unfold getattr. rewrite dict_get_set. reflexivity.
  - unfold getattr. rewrite !dict_get_set. reflexivity.
Qed.

Lemma ranklist_row_results_in_order_witness :
  exists self,
    new RanklistRow
      (PJson (JObj [("party", JObj [("members", JArr [])]);
                    ("problemResults", JArr [JObj [("points", JNum 500)];
                                             JObj [("points", JNum 0)]])]))
    = inr (PObj RanklistRow self) /\
    getattr self "problemResults"
    = inr (PList [PObj ProblemResult [("points", PJson (JNum 500))];
                  PObj ProblemResult [("points", PJson (JNum 0))]]) /\
    getattr self "party" = inr (PObj Party [("members", PList [])]).
Proof.
  exact (ranklist_row_results_in_order
           [("party", JObj [("members", JArr [])]);
            ("problemResults", JArr [JObj [("points", JNum 500)];
                                     JObj [("points", JNum 0)]])]
           (JObj [("members", JArr [])])
           [JObj [("points", JNum 500)]; JObj [("points", JNum 0)]]
           eq_refl eq_refl eq_refl).
Defined.

Ltac recent_action_attrs :=
  rewrite ?hasattr_dict_set, ?hasattr_wrap_items;
  unfold dict_has, getattr;
  rewrite ?dict_get_set, ?dict_get_wrap_items;
  repeat match goal with H : dict_get _ _ = _ |- _ => rewrite H end;
  repeat split; try discriminate;
  intros sub [= <-]; reflexivity.

(** [RecentAction] never fails for an absent sub-field: with
    [blogEntry] and [comment] both present it wraps both, with neither it
    wraps nothing, and in every case the record has the attribute exactly
    when the payload has the field. *)
Theorem recent_action_optional_fields :
  forall (m : list (string * json)),
    well_shaped RecentAction (JObj m) = true ->
    exists self,
      new RecentAction (PJson (JObj m)) = inr (PObj RecentAction self) /\
      hasattr self "blogEntry" = dict_has m "blogEntry" /\
      hasattr self "comment" = dict_has m "comment" /\
      (forall sub, dict_get m "blogEntry" = Some sub ->
                   getattr self "blogEntry" = inr (plain_record BlogEntry sub)) /\
      (forall sub, dict_get m "comment" = Some sub ->
                   getattr self "comment" = inr (plain_record Comment sub)).
Proof.
  intros m H. unfold well_shaped in H. apply andb_true_iff in H.
  destruct H as [Hm H]. cbn [fields] in H.
  apply andb_true_iff in H. destruct H as [Hb Hc].
  unfold optional_field in Hb, Hc.
  cbn [new]. unfold RecentAction_init. construct_step.
  rewrite hasattr_wrap_items. unfold dict_has.
  destruct (dict_get m "blogEntry") as [b|] eqn:Eb;
    destruct (dict_get m "comment") as [c|] eqn:Ec.
  - repeat construct_step.
    rewrite hasattr_dict_set, hasattr_wrap_items. unfold dict_has. rewrite Ec.
    cbn [String.eqb Ascii.eqb Bool.eqb orb]. repeat construct_step.
    eexists. split; [reflexivity | recent_action_attrs].
  - repeat construct_step.
    rewrite hasattr_dict_set, hasattr_wrap_items. unfold dict_has. rewrite Ec.
    cbn [String.eqb Ascii.eqb Bool.eqb orb].
    eexists. split; [reflexivity | recent_action_attrs].
  - cbn [bind ret]. rewrite hasattr_wrap_items. unfold dict_has. rewrite Ec.
    repeat construct_step.
    eexists. split; [reflexivity | recent_action_attrs].
  - cbn [bind ret]. rewrite hasattr_wrap_items. unfold dict_has. rewrite Ec.
    eexists. split; [reflexivity | recent_action_attrs].
Qed.

Lemma recent_action_optional_fields_witness :
  exists self,
    new RecentAction
      (PJson (JObj [("timeSeconds", JNum 1600000000);
                    ("blogEntry", JObj [("id", JNum 79)]);
                    ("comment", JObj [("id", JNum 7)])]))
    = inr (PObj RecentAction self) /\
    getattr self "blogEntry" = inr (PObj BlogEntry [("id", PJson (JNum 79))]) /\
    getattr self "comment" = inr (PObj Comment [("id", PJson (JNum 7))]).
Proof.
  destruct (recent_action_optional_fields
              [("timeSeconds", JNum 1600000000);
               ("blogEntry", JObj [("id", JNum 79)]);
               ("comment", JObj [("id", JNum 7)])] eq_refl)
    as (self & E & _ & _ & Hb & Hc).
  exists self. split; [exact E|]. split.
  - exact (Hb (JObj [("id", JNum 79)]) eq_refl).
  - exact (Hc (JObj [("id", JNum 7)]) eq_refl).
Defined.

(* ================================================================= *)
(** ** The encoder and the signer: further properties *)

Lemma string_append_assoc : forall a b c : string, (a ++ b) ++ c = a ++ (b ++ c).
Proof.
  induction a as [|x a IH]; intros b c; simpl; [reflexivity | now rewrite IH].
Qed.

(** X21: a parameter whose value is [None] counts as not passed, wherever
    it stands in the mapping; a mapping with [None] values only is encoded
    as the empty string. *)
Theorem get_url_none_is_absent :
  (forall (d1 d2 : dict value) (k : string),
      _get_url (d1 ++ (k, VAtom ANone) :: d2)%list = _get_url (d1 ++ d2)%list) /\
  (forall kwargs : dict value,
      Forall (fun kv => snd kv = VAtom ANone) kwargs -> _get_url kwargs = "").
Proof.
  split.
  - intros d1 d2 k. unfold _get_url. rewrite !_sorted_str_kwargs_spec.
    now rewrite !spec_pairs_app.
  - intros kwargs H. unfold _get_url. rewrite _sorted_str_kwargs_spec.
    assert (E : spec_pairs kwargs = []).
    { unfold spec_pairs. induction H as [|[k v] l Hv _ IH]; [reflexivity|].
      simpl in Hv. subst v. exact IH. }
    rewrite E. reflexivity.
Qed.

Lemma get_url_none_is_absent_witness :
  _get_url [("count", VAtom ANone); ("room", VAtom ANone)] = "".
Proof.
  apply (proj2 get_url_none_is_absent). repeat constructor.
Defined.

(** X22: the encoder does not escape its separators: a single parameter
    whose value contains [&key=value] is encoded exactly as two
    parameters are. *)
Theorem get_url_not_escaped :
  forall k1 v1 k2 v2 : string,
    str_le (k1 ++ "=" ++ v1) (k2 ++ "=" ++ v2) ->
    _get_url [(k1, VAtom (AStr (v1 ++ "&" ++ k2 ++ "=" ++ v2)))]
    = _get_url [(k1, VAtom (AStr v1)); (k2, VAtom (AStr v2))].
Proof.
  intros k1 v1 k2 v2 H. unfold _get_url. rewrite !_sorted_str_kwargs_spec.
  unfold spec_pairs. cbn [filter map snd fst is_None negb spec_value_string str].
  rewrite (sorted_pair _ _ H).
  change (sorted [k1 ++ "=" ++ v1 ++ "&" ++ k2 ++ "=" ++ v2])
    with [k1 ++ "=" ++ v1 ++ "&" ++ k2 ++ "=" ++ v2].
  cbn [join String.concat].
  now rewrite !string_append_assoc.
Qed.

Lemma get_url_not_escaped_witness :
  _get_url [("handle", VAtom (AStr "tourist&lang=ru"))]
  = _get_url [("handle", VAtom (AStr "tourist")); ("lang", VAtom (AStr "ru"))].
Proof.
  exact (get_url_not_escaped "handle" "tourist" "lang" "ru" eq_refl).
Defined.

Lemma dict_set_set : forall (V : Type) (d : dict V) k v v',
  dict_set (dict_set d k v) k v' = dict_set d k v'.
Proof.
  induction d as [|[k0 v0] d IH]; intros k v v'; simpl.
  - now rewrite String.eqb_refl.
  - destruct (String.eqb k0 k) eqn:E; simpl; rewrite E; [reflexivity|].
    now rewrite IH.
Qed.

(** X23: a [lang] parameter passed by the caller has no effect: the
    query is the one of the call without it, with the language of the
    object, signed or not. *)
Theorem url_api_request_lang_fixed :
  forall (self : config) (now : Z) (rng : nat -> nat) (method : string)
         (kwargs : dict value) (v : value),
    _url_api_request self now rng method (dict_set kwargs "lang" v)
    = _url_api_request self now rng method kwargs.
Proof.
  intros self now rng method kwargs v. unfold _url_api_request.
  now rewrite dict_set_set.
Qed.

Lemma substring_prefix : forall a b,
  substring 0 (String.length a) (a ++ b) = a.
Proof.
  induction a as [|x a IH]; intro b; simpl.
  - now destruct b.
  - now rewrite IH.
Qed.

Lemma hex_digit_in_alphabet : forall c,
  In c (list_ascii_of_string "0123456789abcdef") ->
  In c (list_ascii_of_string (ascii_lowercase ++ digits)).
Proof.
  intros c H. simpl in H. simpl.
  repeat (destruct H as [<-|H]; [tauto|]). contradiction.
Qed.

(** X24: the signature has 134 characters: the six of the nonce, which it
    starts with, and 128 hexadecimal digits; all of them are lowercase
    letters or digits, so that it needs no escaping. *)
Theorem signature_shape :
  forall (rng : nat -> nat) (method : string) (kwargs : dict value) (secret : string),
    String.length (signature (rand_nonce rng) method kwargs secret) = 134 /\
    substring 0 6 (signature (rand_nonce rng) method kwargs secret) = rand_nonce rng /\
    Forall (fun c => In c (list_ascii_of_string (ascii_lowercase ++ digits)))
           (list_ascii_of_string (signature (rand_nonce rng) method kwargs secret)).
Proof.
  intros rng method kwargs secret. unfold signature.
  destruct (rand_nonce_shape rng) as [Hlen Hchars].
  set (h := sha512_hexdigest _).
  destruct (sha512_hexdigest_shape
              (encode_utf8 (rand_nonce rng ++ "/" ++ method ++ "?" ++ _get_url kwargs
                                           ++ "#" ++ secret))) as [Hh Hhex].
  fold h in Hh, Hhex. split; [|split].
  - rewrite string_length_append, Hlen, Hh. reflexivity.
  - rewrite <- Hlen at 1. apply substring_prefix.
  - rewrite (list_ascii_of_string_append (rand_nonce rng) h).
    apply Forall_app. split; [exact Hchars|].
    eapply Forall_impl; [|exact Hhex]. apply hex_digit_in_alphabet.
Qed.

(* ================================================================= *)
(** ** The formatting helpers *)

Lemma string_of_uint_digits : forall d,
  Forall (fun c => In c (list_ascii_of_string digits))
         (list_ascii_of_string (NilEmpty.string_of_uint d)).
Proof.
  induction d; simpl; constructor; trivial; simpl; tauto.
Qed.

(** The decimal form of a natural number: not empty, digits only. *)
Lemma str_nonneg_digits : forall z,
  (0 <= z)%Z ->
  str (AInt z) <> "" /\
  Forall (fun c => In c (list_ascii_of_string digits))
         (list_ascii_of_string (str (AInt z))).
Proof.
  intros [|p|p] H; try lia.
  - split; [discriminate | repeat constructor; simpl; tauto].
  - cbn [str Z.to_int NilZero.string_of_int].
    pose proof (Unsigned.to_uint_nonnil p) as Hn.
    pose proof (string_of_uint_digits (Pos.to_uint p)) as Hd.
    unfold NilZero.string_of_uint.
    destruct (Pos.to_uint p); try contradiction; (split; [discriminate | exact Hd]).
Qed.

Lemma str_nonempty : forall z, str (AInt z) <> "".
Proof.
  intros [|p|p].
  - discriminate.
  - apply str_nonneg_digits. lia.
  - discriminate.
Qed.

(** [str] on integers is one to one. *)
Lemma str_int_inj : forall z z', str (AInt z) = str (AInt z') -> z = z'.
Proof.
  intros z z' H. apply to_int_inj. cbn [str] in H.
  assert (Hnn : forall n, Z.to_int n <> Decimal.Pos Decimal.Nil /\
                          Z.to_int n <> Decimal.Neg Decimal.Nil).
  { intros [|p|p]; simpl; split; try discriminate;
      intros [= E]; now apply (Unsigned.to_uint_nonnil p). }
  apply (f_equal NilZero.int_of_string) in H.
  rewrite !NilZero.isi in H by apply Hnn.
  now injection H.
Qed.

Lemma colon_not_digit : forall a r,
  Forall (fun c => In c (list_ascii_of_string digits))
         (list_ascii_of_string (a ++ String ":" r)) -> False.
Proof.
  induction a as [|x a IH]; intros r H; simpl in H; inversion H as [|? ? Hx Hr]; subst.
  - simpl in Hx. repeat (destruct Hx as [Hx|Hx]; [discriminate Hx|]). exact Hx.
  - now apply (IH r).
Qed.

Lemma digits_split : forall a a' r r',
  Forall (fun c => In c (list_ascii_of_string digits)) (list_ascii_of_string a) ->
  Forall (fun c => In c (list_ascii_of_string digits)) (list_ascii_of_string a') ->
  a ++ String ":" r = a' ++ String ":" r' -> a = a' /\ r = r'.
Proof.
  induction a as [|x a IH]; intros [|x' a'] r r' Ha Ha' E; simpl in E.
  - injection E as ->. now split.
  - injection E as <- _. exfalso. inversion Ha' as [|? ? Hx _]; subst.
    simpl in Hx. repeat (destruct Hx as [Hx|Hx]; [discriminate Hx|]). exact Hx.
  - injection E as -> _. exfalso. inversion Ha as [|? ? Hx _]; subst.
    simpl in Hx. repeat (destruct Hx as [Hx|Hx]; [discriminate Hx|]). exact Hx.
  - injection E as -> E. simpl in Ha, Ha'.
    inversion Ha; inversion Ha'; subst.
    destruct (IH a' r r') as [-> ->]; trivial. now split.
Qed.

(** X25: the hack cell is empty exactly when both counts are zero, and
    for counts that are not negative it tells the two counts: different
    pairs of counts give different cells. *)
Theorem hack_format_faithful :
  (forall succ unsucc : Z,
      _hack_format succ unsucc = "" <-> succ = 0%Z /\ unsucc = 0%Z) /\
  (forall succ unsucc succ' unsucc' : Z,
      (0 <= succ)%Z -> (0 <= unsucc)%Z -> (0 <= succ')%Z -> (0 <= unsucc')%Z ->
      _hack_format succ unsucc = _hack_format succ' unsucc' ->
      succ = succ' /\ unsucc = unsucc').
Proof.
  split.
  - intros succ unsucc. unfold _hack_format.
    destruct (Z.eqb_spec succ 0) as [->|Hs]; destruct (Z.eqb_spec unsucc 0) as [->|Hu];
      split; try tauto; try discriminate; intros [? ?]; contradiction.
  - intros s u s' u' Hs Hu Hs' Hu'. unfold _hack_format.
    destruct (str_nonneg_digits s Hs) as [_ Ds].
    destruct (str_nonneg_digits s' Hs') as [_ Ds'].
    destruct (Z.eqb_spec s 0) as [->|Ns]; destruct (Z.eqb_spec u 0) as [->|Nu];
      destruct (Z.eqb_spec s' 0) as [->|Ns']; destruct (Z.eqb_spec u' 0) as [->|Nu'];
      cbn [String.append]; intro E; try discriminate E; try (now split);
      injection E as E; cbn [str] in *.
    + apply str_int_inj in E. now subst.
    + apply str_int_inj in E. now subst.
    + exfalso. rewrite E in Ds.
      now apply (colon_not_digit _ _ Ds).
    + exfalso. rewrite <- E in Ds'.
      now apply (colon_not_digit _ _ Ds').
    + destruct (digits_split _ _ _ _ Ds Ds' E) as [E1 E2].
      injection E2 as E2. apply str_int_inj in E1, E2. now subst.
Qed.

Lemma hack_format_faithful_witness :
  _hack_format 3 2 = "+3:-2" /\ (3 = 3 /\ 2 = 2)%Z.
Proof.
  split; [reflexivity|].
  apply (proj2 hack_format_faithful 3 2 3 2)%Z; try lia. reflexivity.
Defined.

(** X26: the column labels are the first [num] capital letters, in
    order; no label for a number that is not positive; after [Z] the
    labels go on with the next characters of the code table, the 27th
    label being ["["]. *)
Theorem problem_symb_letters :
  forall num : Z,
    ((num <= 26)%Z ->
     _problem_symb num =
     firstn (Z.to_nat num)
       ["A"; "B"; "C"; "D"; "E"; "F"; "G"; "H"; "I"; "J"; "K"; "L"; "M";
        "N"; "O"; "P"; "Q"; "R"; "S"; "T"; "U"; "V"; "W"; "X"; "Y"; "Z"]) /\
    ((26 < num)%Z -> nth 26 (_problem_symb num) "" = "[") /\
    List.length (_problem_symb num) = Z.to_nat num.
Proof.
  intro num. unfold _problem_symb. split; [|split].
  - intro H. assert (Hn : Z.to_nat num <= 26) by lia.
    revert Hn. generalize (Z.to_nat num). intros n Hn.
    do 27 (destruct n as [|n]; [reflexivity|]). lia.
  - intro H. assert (Hn : 26 < Z.to_nat num) by lia.
    revert Hn. generalize (Z.to_nat num). intros n Hn.
    rewrite (nth_indep _ "" (chr (65 + 0))) by (rewrite length_map, length_seq; lia).
    rewrite (map_nth (fun i => chr (65 + i))), seq_nth by lia. reflexivity.
  - now rewrite length_map, length_seq.
Qed.

Lemma problem_symb_letters_witness :
  _problem_symb 3 = ["A"; "B"; "C"] /\ nth 26 (_problem_symb 30) "" = "[".
Proof.
  split.
  - apply (proj1 (problem_symb_letters 3)). lia.
  - apply (proj1 (proj2 (problem_symb_letters 30))). lia.
Defined.

Lemma mapM_handles : forall ms hs,
  Forall2 (fun j h => dict_get (fields j) "handle" = Some (JStr h)) ms hs ->
  mapM (fun i => attr i "handle") (map (plain_record Member) ms)
  = inr (map (fun h => PJson (JStr h)) hs).
Proof.
  induction 1 as [|j h ms hs Hj _ IH]; [reflexivity|].
  cbn [map mapM]. rewrite IH.
  unfold plain_record at 1. cbn [attr]. unfold getattr.
  rewrite dict_get_wrap_items, Hj. reflexivity.
Qed.

Lemma mapM_as_str : forall hs,
  mapM as_str (map (fun h => PJson (JStr h)) hs) = inr hs.
Proof.
  induction hs as [|h hs IH]; [reflexivity|].
  cbn [map mapM as_str ret bind]. now rewrite IH.
Qed.

(** X27: on a [Party] record made from a payload whose members all have
    a string [handle], [_party_format] gives the handles joined by
    [", "], in the order of the payload. *)
Theorem party_format_handles :
  forall (m : list (string * json)) (ms : list json) (hs : list string),
    party_shaped (JObj m) = true ->
    dict_get m "members" = Some (JArr ms) ->
    Forall2 (fun j h => dict_get (fields j) "handle" = Some (JStr h)) ms hs ->
    exists party,
      new Party (PJson (JObj m)) = inr party /\
      _party_format party = inr (join ", " hs).
Proof.
  intros m ms hs H Hms Hhs. cbn [new]. rewrite (new_Party_shaped _ H).
  unfold party_record. cbn [fields]. rewrite Hms. cbn [elements].
  eexists. split; [reflexivity|].
  unfold _party_format. cbn [attr]. unfold getattr. rewrite dict_get_set.
  cbn [String.eqb Ascii.eqb Bool.eqb ret bind iter].
  rewrite (mapM_handles ms hs Hhs). cbn [bind].
  rewrite mapM_as_str. reflexivity.
Qed.

Lemma party_format_handles_witness :
  exists party,
    new Party (PJson (JObj [("members", JArr [JObj [("handle", JStr "Petr")];
                                              JObj [("handle", JStr "tourist")]])]))
    = inr party /\
    _party_format party = inr "Petr, tourist".
Proof.
  apply (party_format_handles
           [("members", JArr [JObj [("handle", JStr "Petr")];
                              JObj [("handle", JStr "tourist")]])]
           [JObj [("handle", JStr "Petr")]; JObj [("handle", JStr "tourist")]]
           ["Petr"; "tourist"] eq_refl eq_refl).
  repeat constructor.
Defined.

(** X28: the cell of a problem result, for integer counts.  With no
    points it is empty when there is no rejected attempt, and [-] with the
    number of attempts otherwise.  With points it is [+], the attempts,
    and the time of the best submission as hours and minutes, rounded down
    to the minute, the minutes below 60; it needs the time of the best
    submission, and raises [AttributeError] when the record has none. *)
Theorem problem_format_cell :
  forall (self : dict pyval) (points rejected : Z),
    getattr self "points" = inr (PJson (JNum points)) ->
    getattr self "rejectedAttemptCount" = inr (PJson (JNum rejected)) ->
    (points = 0%Z ->
     _problem_format (PObj ProblemResult self) =
     inr (if Z.eqb rejected 0 then "" else "-" ++ ljust2 (str (AInt rejected)))) /\
    (points <> 0%Z ->
     forall best,
       getattr self "bestSubmissionTimeSeconds" = inr (PJson (JNum best)) ->
       (0 <= best)%Z ->
       exists hh mm : Z,
         (0 <= mm < 60)%Z /\
         (3600 * hh + 60 * mm <= best < 3600 * hh + 60 * mm + 60)%Z /\
         _problem_format (PObj ProblemResult self) =
         inr ("+" ++ ljust2 (if Z.eqb rejected 0 then "" else str (AInt rejected))
                  ++ " (" ++ format_02d hh ++ ":" ++ format_02d mm ++ ")")) /\
    (points <> 0%Z ->
     dict_get self "bestSubmissionTimeSeconds" = None ->
     exists msg, _problem_format (PObj ProblemResult self) = inl (AttributeError msg)).
Proof.
  intros self points rejected Hp Hr. unfold _problem_format. cbn [attr].
  rewrite Hp. cbn [bind ne0]. split; [|split].
  - intros ->. cbn [Z.eqb negb]. rewrite Hr. cbn [bind ne0].
    destruct (Z.eqb rejected 0); reflexivity.
  - intros Hne best Hb Hpos.
    apply Z.eqb_neq in Hne. rewrite Hne. cbn [negb].
    rewrite Hr, Hb. cbn [bind truthy as_int ret].
    exists (best / 3600)%Z, ((best mod 3600) / 60)%Z.
    split; [|split].
    + pose proof (Z.mod_pos_bound best 3600 ltac:(lia)).
      split; [apply Z.div_pos; lia | apply Z.div_lt_upper_bound; lia].
    + pose proof (Z.div_mod best 3600 ltac:(lia)).
      pose proof (Z.div_mod (best mod 3600) 60 ltac:(lia)).
      pose proof (Z.mod_pos_bound (best mod 3600) 60 ltac:(lia)).
      lia.
    + destruct (Z.eqb rejected 0); reflexivity.
  - intros Hne Hnone.
    apply Z.eqb_neq in Hne. rewrite Hne. cbn [negb].
    rewrite Hr. cbn [bind]. unfold getattr. rewrite Hnone.
    eexists. reflexivity.
Qed.

Lemma problem_format_cell_witness :
  _problem_format (PObj ProblemResult [("points", PJson (JNum 500));
                                       ("rejectedAttemptCount", PJson (JNum 2));
                                       ("bestSubmissionTimeSeconds", PJson (JNum 7325))])
  = inr "+2  (02:02)" /\
  _problem_format (PObj ProblemResult [("points", PJson (JNum 0));
                                       ("rejectedAttemptCount", PJson (JNum 3))])
  = inr "-3 ".
Proof.
  split.
  - reflexivity.
  - exact (proj1 (problem_format_cell
                    [("points", PJson (JNum 0)); ("rejectedAttemptCount", PJson (JNum 3))]
                    0 3 eq_refl eq_refl) eq_refl).
Defined.

(* ================================================================= *)
(** ** Pages *)

(** X29: when a page request fails at the HTTP level, [get_page] does not
    report the status of the page: the error is built from [last_api],
    that is, it carries the status code of the last API response when
    [last_api] still holds one, and is an [AttributeError] when no API
    request was made or when the last one was parsed. *)
Theorem get_page_failure_reads_last_api :
  forall (fetch : string -> dict value -> result page) (link : string)
         (params : dict value) (self : ext_api) (p : page),
    fetch (_site_link ++ link)
          (dict_set params "locale" (VAtom (AStr (_lang (conf (base self)))))) = inr p ->
    ok (page_response p) = false ->
    last_page (snd (get_page fetch link params self)) = Some p /\
    match last_api (base self) with
    | LastResponse r =>
        fst (get_page fetch link params self) =
        inl (ConnectionError
               ("Request status" ++ spaces 35 ++ "is " ++ str (AInt (status_code r))) None)
    | _ => exists msg, fst (get_page fetch link params self) = inl (AttributeError msg)
    end.
Proof.
  intros fetch link params self p Hf Hok. unfold get_page. rewrite Hf.
  cbn [base]. unfold _check_request. rewrite Hok. cbn [negb].
  unfold mbind, last_status_code, mraise.
  destruct (last_api (base self)) as [|r|j]; cbn [fst snd last_page];
    (split; [reflexivity|]); try reflexivity; eexists; reflexivity.
Qed.

Lemma get_page_failure_reads_last_api_witness :
  exists msg,
    fst (get_page (fun _ _ => inr (mkPage (mkResponse false 404 None) "Not Found"))
           "contest/566/problems" []
           (mkExt anonymous (Some "tourist") None None None))
    = inl (AttributeError msg).
Proof.
  exact (proj2 (get_page_failure_reads_last_api
                  (fun _ _ => inr (mkPage (mkResponse false 404 None) "Not Found"))
                  "contest/566/problems" []
                  (mkExt anonymous (Some "tourist") None None None)
                  (mkPage (mkResponse false 404 None) "Not Found") eq_refl eq_refl)).
Defined.

(** X30: [get_contestStatements] asks for the page
    [contest/<contestId>/problems] of the site with the language of the
    object as [locale] and nothing else; on success it returns the text of
    the page, keeps it in [last_contestStatements] and the response in
    [last_page], and leaves the API state as it was. *)
Theorem get_contestStatements_page :
  forall (fetch : string -> dict value -> result page) (contestId : Z)
         (self : ext_api) (p : page),
    fetch ("http://codeforces.com/contest/" ++ str (AInt contestId) ++ "/problems")
          [("locale", VAtom (AStr (_lang (conf (base self)))))] = inr p ->
    ok (page_response p) = true ->
    get_contestStatements fetch contestId self =
    (inr (text p),
     mkExt (base self) (_handle self) (_workingDir self) (Some p) (Some (text p))).
Proof.
  intros fetch contestId self p Hf Hok.
  unfold get_contestStatements, get_page. cbn [dict_set _site_link String.append].
  cbn [String.append] in Hf. rewrite Hf.
  cbn [base]. unfold _check_request. rewrite Hok. cbn [negb mret].
  destruct self as [b h wd lp lc]. destruct b. reflexivity.
Qed.

Lemma get_contestStatements_page_witness :
  get_contestStatements
    (fun _ _ => inr (mkPage (mkResponse true 200 None) "<html>A. Problem</html>"))
    566 (mkExt anonymous (Some "tourist") None None None)
  = (inr "<html>A. Problem</html>",
     mkExt anonymous (Some "tourist") None
           (Some (mkPage (mkResponse true 200 None) "<html>A. Problem</html>"))
           (Some "<html>A. Problem</html>")).
Proof.
  exact (get_contestStatements_page
           (fun _ _ => inr (mkPage (mkResponse true 200 None) "<html>A. Problem</html>"))
           566 (mkExt anonymous (Some "tourist") None None None)
           (mkPage (mkResponse true 200 None) "<html>A. Problem</html>")
           eq_refl eq_refl).
Defined.
